(** * Course / employee / student record manager: model and properties

    A shallow embedding of [main.py]: the line-delimited JSON record store
    ([FileHandler]), the [Employee] class, and the four relationship
    operations ([assign_course_to_employee], [unassign_course],
    [register_for_course], [unregister_from_course]).

    Records are the values [json.loads] produces, so they are modelled as
    dynamically typed JSON values; a Python exception is an explicit
    outcome; the files, the console input and the reported messages are
    threaded through a state monad. *)

From Stdlib Require Import ZArith List String Ascii Bool Lia.
From Stdlib Require Import Floats.
From Stdlib Require DecimalString DecimalZ.
Import ListNotations.
Local Open Scope string_scope.
Local Open Scope Z_scope.
Local Open Scope list_scope.
Local Set Warnings "-register-all".

(** ** Values *)

(** What [json.loads] returns: [None], [bool], [int] (unbounded), [float]
    (binary64, with NaN and the infinities), [str], [list], and [dict] with
    string keys in insertion order. *)
Inductive json : Type :=
| JNull
| JBool (b : bool)
| JInt (n : Z)
| JFloat (x : float)
| JStr (s : string)
| JArr (xs : list json)
| JObj (kvs : list (string * json)).

(** The exceptions the modelled code can raise. *)
Inductive exn : Type :=
| KeyError | TypeError | AttributeError | ValueError | IndexError
| OverflowError | EOFError.

Inductive outcome (A : Type) : Type :=
| Ret (a : A)
| Raise (e : exn).
Arguments Ret {A} a.
Arguments Raise {A} e.

(** ** Dictionaries *)

(** [d.get(k)] / [k in d]: the value bound to [k], if any. *)
Fixpoint dict_get (k : string) (d : list (string * json)) : option json :=
  match d with
  | [] => None
  | (k', v) :: d' => if String.eqb k k' then Some v else dict_get k d'
  end.

(** [d[k] = v]: rebinds [k] where it stands, or adds it at the end. *)
Fixpoint dict_set (k : string) (v : json) (d : list (string * json))
  : list (string * json) :=
  match d with
  | [] => [(k, v)]
  | (k', v') :: d' =>
      if String.eqb k k' then (k', v) :: d' else (k', v') :: dict_set k v d'
  end.

(** [v[k]] for a string key [k]: a [KeyError] on a dict without [k], a
    [TypeError] on every other kind of value. *)
Definition getitem (v : json) (k : string) : outcome json :=
  match v with
  | JObj d => match dict_get k d with Some x => Ret x | None => Raise KeyError end
  | _ => Raise TypeError
  end.

(** ** Numbers *)

Definition Z_of_bool (b : bool) : Z := if b then 1 else 0.

(** The exact value of a finite float is [sgn * m * 2^e]. *)
Definition signed (s : bool) (m : positive) : Z :=
  if s then Z.neg m else Z.pos m.

(** [x == n] for a float [x] and an int [n]: Python compares the exact
    values. *)
Definition float_eq_int (x : float) (n : Z) : bool :=
  match Prim2SF x with
  | S754_zero _ => n =? 0
  | S754_finite s m e =>
      if 0 <=? e then signed s m * 2 ^ e =? n
      else signed s m =? n * 2 ^ (- e)
  | _ => false
  end.

(** [x >= n] for a float [x] and an int [n], again on the exact values. *)
Definition float_ge_int (x : float) (n : Z) : bool :=
  match Prim2SF x with
  | S754_zero _ => n <=? 0
  | S754_finite s m e =>
      if 0 <=? e then n <=? signed s m * 2 ^ e
      else n * 2 ^ (- e) <=? signed s m
  | S754_infinity s => negb s
  | S754_nan => false
  end.

(** [float(n)] as arithmetic applies it to an int operand: the nearest
    binary64 (ties to even), [OverflowError] beyond the finite range. *)
Definition float_of_int (n : Z) : outcome float :=
  match binary_normalize prec emax n 0 false with
  | S754_infinity _ => Raise OverflowError
  | sf => Ret (SF2Prim sf)
  end.

(** The numeric view of a value: [bool] is a subtype of [int]. *)
Inductive number : Type :=
| NInt (n : Z)
| NFloat (x : float).

Definition as_number (v : json) : option number :=
  match v with
  | JBool b => Some (NInt (Z_of_bool b))
  | JInt n => Some (NInt n)
  | JFloat x => Some (NFloat x)
  | _ => None
  end.

(** [a + b] and [a - b] on numbers; an int meeting a float is converted
    first. Any other operand is a [TypeError]. *)
Definition arith (iop : Z -> Z -> Z) (fop : float -> float -> float)
    (a b : json) : outcome json :=
  match as_number a, as_number b with
  | Some (NInt m), Some (NInt n) => Ret (JInt (iop m n))
  | Some (NFloat x), Some (NFloat y) => Ret (JFloat (fop x y))
  | Some (NInt m), Some (NFloat y) =>
      match float_of_int m with
      | Ret x => Ret (JFloat (fop x y))
      | Raise e => Raise e
      end
  | Some (NFloat x), Some (NInt n) =>
      match float_of_int n with
      | Ret y => Ret (JFloat (fop x y))
      | Raise e => Raise e
      end
  | _, _ => Raise TypeError
  end.

Definition py_add : json -> json -> outcome json := arith Z.add PrimFloat.add.
Definition py_sub : json -> json -> outcome json := arith Z.sub PrimFloat.sub.

(** [v >= n] for an int literal [n]. *)
Definition py_ge_int (v : json) (n : Z) : outcome bool :=
  match as_number v with
  | Some (NInt m) => Ret (n <=? m)
  | Some (NFloat x) => Ret (float_ge_int x n)
  | None => Raise TypeError
  end.

(** ** Equality, length, truth *)

Definition num_eq (a b : number) : bool :=
  match a, b with
  | NInt m, NInt n => m =? n
  | NFloat x, NFloat y => PrimFloat.eqb x y
  | NInt m, NFloat y => float_eq_int y m
  | NFloat x, NInt n => float_eq_int x n
  end.

Definition is_nan (v : json) : bool :=
  match v with
  | JFloat x => PrimFloat.is_nan x
  | _ => false
  end.

(** [a == b]. Numbers compare by value across [bool], [int] and [float];
    lists compare element by element, dicts key by key whatever the order.
    Inside a container an item also equals itself ([x is y or x == y]), which
    only matters for NaN: every NaN read by [json.loads] is one and the same
    object. [inside] tells whether the comparison happens in a container. *)
Fixpoint py_eq_at (inside : bool) (a b : json) {struct a} : bool :=
  match a, b with
  | JNull, JNull => true
  | JStr s, JStr t => String.eqb s t
  | JArr xs, JArr ys =>
      (fix all2 (xs ys : list json) : bool :=
         match xs, ys with
         | [], [] => true
         | x :: xs', y :: ys' => py_eq_at true x y && all2 xs' ys'
         | _, _ => false
         end) xs ys
  | JObj d, JObj d' =>
      (List.length d =? List.length d')%nat &&
      (fix all (d : list (string * json)) : bool :=
         match d with
         | [] => true
         | (k, v) :: r =>
             match dict_get k d' with
             | Some v' => py_eq_at true v v'
             | None => false
             end && all r
         end) d
  | _, _ =>
      match as_number a, as_number b with
      | Some m, Some n => num_eq m n || (inside && is_nan a && is_nan b)
      | _, _ => false
      end
  end.

Definition py_eq : json -> json -> bool := py_eq_at false.

(** [len(v)]; a [str] counts its characters, a [dict] its keys. *)
Definition py_len (v : json) : outcome nat :=
  match v with
  | JStr s => Ret (String.length s)
  | JArr xs => Ret (List.length xs)
  | JObj d => Ret (List.length d)
  | _ => Raise TypeError
  end.

(** Truth value of [v] in a condition. *)
Definition truthy (v : json) : bool :=
  match v with
  | JNull => false
  | JBool b => b
  | JInt n => negb (n =? 0)
  | JFloat x => negb (PrimFloat.eqb x 0%float)
  | JStr s => negb (String.eqb s "")
  | JArr xs => match xs with [] => false | _ => true end
  | JObj d => match d with [] => false | _ => true end
  end.

(** ** The platform *)

(** What the program takes from outside its own source: how a file's
    content is read back as records and written from records, and the
    builtin [int] on the text the user typed ([None] is [ValueError]).
    [FileHandler] is the only code that touches a file's content, so the
    operations are stated against this interface; [TextFile] below is the
    instance [main.py] runs on. *)
Class Platform : Type := {
  content : Type;
  (** [[json.loads(line) for line in file]]; [None] when some line raises
      [json.JSONDecodeError]. *)
  load_lines : content -> option (list json);
  (** What [for record in records: file.write(json.dumps(record) + "\n")]
      leaves in a file opened with mode ["w"]. *)
  dump_lines : list json -> content;
  py_int : string -> option Z
}.

(** Reading back what was written gives the records written. *)
Definition Lawful (P : Platform) : Prop :=
  forall rs : list json, load_lines (dump_lines rs) = Some rs.

(** Messages the program reports on the console. Menu headers, prompts
    and the rendering of tables are presentation and are left out; the
    exceptions raised while a table is built are kept. *)
Inductive msg : Type :=
| MsgErrorReadingFile
| MsgNoCoursesFound
| MsgCourseAssigned (subject name : json)
| MsgCourseNotFound
| MsgEmployeeNotFound
| MsgCourseUnassigned (subject : json)
| MsgInvalidCourseNumber
| MsgInvalidNumber
| MsgNoAssignedCourses
| MsgProfessorNotFound
| MsgTooManyCourses
| MsgBalanceTooHigh
| MsgCourseRegistered
| MsgInvalidCRN
| MsgStudentNotFound
| MsgCourseUnregistered (subject : json)
| MsgNoCoursesToUnregister.

(** The files after [name] was rewritten with [c]. *)
Definition write_files {C : Type} (name : string) (c : C)
    (f : string -> option C) : string -> option C :=
  fun n => if String.eqb n name then Some c else f n.

Section Program.
Context {P : Platform}.

(** The state a run acts on: the files by name ([None]: no such file), the
    lines still to be typed by the user, the messages reported so far. *)
Record world : Type := World {
  files : string -> option content;
  stdin : list string;
  stdout : list msg
}.

Definition M (A : Type) : Type := world -> outcome A * world.

Definition ret {A} (a : A) : M A := fun w => (Ret a, w).

Definition bind {A B} (m : M A) (k : A -> M B) : M B :=
  fun w =>
    match m w with
    | (Ret a, w') => k a w'
    | (Raise e, w') => (Raise e, w')
    end.

Definition lift {A} (o : outcome A) : M A := fun w => (o, w).

Definition raise {A} (e : exn) : M A := lift (Raise e).

Notation "x <- m ;; k" := (bind m (fun x => k))
  (at level 61, m at next level, right associativity).
Notation "m ;;; k" := (bind m (fun _ => k))
  (at level 61, right associativity).

(** [print(...)] of a report. *)
Definition print (m : msg) : M unit :=
  fun w => (Ret tt, World (files w) (stdin w) (stdout w ++ [m])).

(** [input(...)]: the next line typed, [EOFError] when there is none. *)
Definition input : M string :=
  fun w =>
    match stdin w with
    | [] => (Raise EOFError, w)
    | l :: ls => (Ret l, World (files w) ls (stdout w))
    end.

(** [int(s)]. *)
Definition int (s : string) : M Z :=
  match py_int s with
  | Some n => ret n
  | None => raise ValueError
  end.

(** [try: m except ValueError: h]. What [m] did before raising stays done. *)
Definition try_ValueError {A} (m : M A) (h : M A) : M A :=
  fun w =>
    match m w with
    | (Raise ValueError, w') => h w'
    | r => r
    end.

(** ** FileHandler *)

Definition set_file (name : string) (c : content) (w : world) : world :=
  World (write_files name c (files w)) (stdin w) (stdout w).

(** [FileHandler(name).read_records_file()]. *)
Definition read_records_file (name : string) : M (list json) :=
  fun w =>
    match files w name with
    | None => ret [] w
    | Some c =>
        match load_lines c with
        | Some records => ret records w
        | None => (print MsgErrorReadingFile ;;; ret []) w
        end
    end.

(** [FileHandler(name).write_record(records)]; the write itself is taken
    to succeed. *)
Definition write_record (name : string) (records : list json) : M unit :=
  fun w => (Ret tt, set_file name (dump_lines records) w).

(** The records a read of [name] would return in [w]. *)
Definition stored (w : world) (name : string) : list json :=
  match files w name with
  | None => []
  | Some c => match load_lines c with Some rs => rs | None => [] end
  end.

(** ** The loop shared by every lookup *)

(** [for r in rs: if r[key] == target: <found>; break] followed by
    [<not_found>] when no record matched. [r[key]] is a [TypeError] when
    [r] is not a dict and a [KeyError] when it has no [key]. [found]
    receives the records before the match, the matching dict and the
    records after it, so that a change made to the matching record is a
    change of the list. *)
Fixpoint for_first {A} (key : string) (target : json)
    (found : list json -> list (string * json) -> list json -> M A)
    (not_found : M A) (before rest : list json) : M A :=
  match rest with
  | [] => not_found
  | r :: after =>
      match r with
      | JObj d =>
          match dict_get key d with
          | Some v =>
              if py_eq v target then found before d after
              else for_first key target found not_found (before ++ [r]) after
          | None => raise KeyError
          end
      | _ => raise TypeError
      end
  end.

(** ** Lists held in a record *)

(** [v.append(x)]: only a list has the method. *)
Definition py_append (v x : json) : outcome json :=
  match v with
  | JArr xs => Ret (JArr (xs ++ [x]))
  | _ => Raise AttributeError
  end.

(** [v.pop(i)] for an int [i] with [0 <= i < len(v)]: a list gives up its
    item [i]; a dict has no int key; nothing else has the method. *)
Definition py_pop (v : json) (i : nat) : outcome (json * json) :=
  match v with
  | JArr xs =>
      match nth_error xs i with
      | Some x => Ret (x, JArr (firstn i xs ++ skipn (S i) xs))
      | None => Raise IndexError
      end
  | JObj _ => Raise KeyError
  | _ => Raise AttributeError
  end.

(** The items [enumerate(v)] yields: the elements of a list, the
    characters of a [str], the keys of a [dict]. *)
Definition py_iter (v : json) : outcome (list json) :=
  match v with
  | JArr xs => Ret xs
  | JStr s => Ret (map (fun c => JStr (String c EmptyString)) (list_ascii_of_string s))
  | JObj d => Ret (map (fun kv => JStr (fst kv)) d)
  | _ => Raise TypeError
  end.

(** A table row is built with [record.get(...)], which only a dict has. *)
Fixpoint rows_get (items : list json) : outcome unit :=
  match items with
  | [] => Ret tt
  | JObj _ :: rest => rows_get rest
  | _ :: _ => Raise AttributeError
  end.

Definition BASE_SALARY : Z := 30000.
Definition PER_COURSE_BONUS : Z := 5000.

(** [Employee.BASE_SALARY + (len(courses) * Employee.PER_COURSE_BONUS)] *)
Definition salary_for (courses : json) : outcome json :=
  match py_len courses with
  | Ret n => Ret (JInt (BASE_SALARY + Z.of_nat n * PER_COURSE_BONUS))
  | Raise e => Raise e
  end.

(** ** Relationship operations *)

(** The body of [assign_course_to_employee] once the employee [d] and the
    course are found. *)
Definition assign_found (before : list json) (d : list (string * json))
    (after : list json) (course : list (string * json)) : M unit :=
  let d1 :=
    match dict_get "Courses" d with
    | None => dict_set "Courses" (JArr []) d
    | Some _ => d
    end in
  cs <- lift (getitem (JObj d1) "Courses") ;;
  cs' <- lift (py_append cs (JObj course)) ;;
  let d2 := dict_set "Courses" cs' d1 in
  salary <- lift (salary_for cs') ;;
  let d3 := dict_set "Salary" salary d2 in
  write_record "employees.json" (before ++ JObj d3 :: after) ;;;
  subject <- lift (getitem (JObj course) "Subject") ;;
  name <- lift (getitem (JObj d3) "Name") ;;
  print (MsgCourseAssigned subject name).

(** [assign_course_to_employee] from the point where the member ID and the
    CRN have been typed and converted. *)
Definition assign_course_with (mem_id : string) (crn : Z) : M unit :=
  employees <- read_records_file "employees.json" ;;
  courses <- read_records_file "courses.json" ;;
  for_first "ID" (JStr mem_id)
    (fun before d after =>
       for_first "CRN" (JInt crn)
         (fun _ course _ => assign_found before d after course)
         (print MsgCourseNotFound) [] courses)
    (print MsgEmployeeNotFound) [] employees.

Definition assign_course_to_employee : M unit :=
  mem_id <- input ;;
  line <- input ;;
  crn <- int line ;;
  assign_course_with mem_id crn.

(** The body of [unassign_course] once the professor [d] is found. *)
Definition unassign_found (before : list json) (d : list (string * json))
    (after : list json) : M unit :=
  match dict_get "Courses" d with
  | Some cs =>
      if truthy cs then
        items <- lift (py_iter cs) ;;
        lift (rows_get items) ;;;
        try_ValueError
          (line <- input ;;
           n <- int line ;;
           let course_index := n - 1 in
           len <- lift (py_len cs) ;;
           if (0 <=? course_index) && (course_index <? Z.of_nat len) then
             popped <- lift (py_pop cs (Z.to_nat course_index)) ;;
             let d1 := dict_set "Courses" (snd popped) d in
             salary <- lift (salary_for (snd popped)) ;;
             let d2 := dict_set "Salary" salary d1 in
             write_record "employees.json" (before ++ JObj d2 :: after) ;;;
             subject <- lift (getitem (fst popped) "Subject") ;;
             print (MsgCourseUnassigned subject)
           else print MsgInvalidCourseNumber)
          (print MsgInvalidNumber)
      else print MsgNoAssignedCourses
  | None => print MsgNoAssignedCourses
  end.

Definition unassign_course (mem_id : string) : M unit :=
  records <- read_records_file "employees.json" ;;
  for_first "ID" (JStr mem_id) unassign_found
    (print MsgProfessorNotFound) [] records.

(** [view_courses()], called by [register_for_course] to show the
    catalogue. *)
Definition view_courses : M unit :=
  records <- read_records_file "courses.json" ;;
  match records with
  | [] => print MsgNoCoursesFound
  | _ => lift (rows_get records)
  end.

(** The body of [register_for_course] once the student [d] and the course
    are found. *)
Definition register_found (before : list json) (d : list (string * json))
    (after : list json) (course : list (string * json)) : M unit :=
  cs <- lift (getitem (JObj d) "Courses") ;;
  match cs with
  | JArr _ =>
      subject <- lift (getitem (JObj course) "Subject") ;;
      cs' <- lift (py_append cs subject) ;;
      let d1 := dict_set "Courses" cs' d in
      balance <- lift (getitem (JObj d1) "Balance") ;;
      cost <- lift (getitem (JObj course) "Cost") ;;
      balance' <- lift (py_add balance cost) ;;
      let d2 := dict_set "Balance" balance' d1 in
      write_record "students.json" (before ++ JObj d2 :: after) ;;;
      print MsgCourseRegistered
  | _ => raise AttributeError
  end.

Definition register_for_course (mem_id : string) : M unit :=
  records <- read_records_file "students.json" ;;
  for_first "ID" (JStr mem_id)
    (fun before d after =>
       cs <- lift (getitem (JObj d) "Courses") ;;
       n <- lift (py_len cs) ;;
       if (5 <=? n)%nat then print MsgTooManyCourses
       else
         balance <- lift (getitem (JObj d) "Balance") ;;
         high <- lift (py_ge_int balance 10000) ;;
         if (high : bool) then print MsgBalanceTooHigh
         else
           view_courses ;;;
           try_ValueError
             (line <- input ;;
              crn <- int line ;;
              courses <- read_records_file "courses.json" ;;
              for_first "CRN" (JInt crn)
                (fun _ course _ => register_found before d after course)
                (print MsgCourseNotFound) [] courses)
             (print MsgInvalidCRN))
    (print MsgStudentNotFound) [] records.

(** The body of [unregister_from_course] once the student [d] is found. *)
Definition unregister_found (before : list json) (d : list (string * json))
    (after : list json) : M unit :=
  match dict_get "Courses" d with
  | Some cs =>
      if truthy cs then
        lift (py_iter cs) ;;;
        try_ValueError
          (line <- input ;;
           n <- int line ;;
           let course_index := n - 1 in
           len <- lift (py_len cs) ;;
           if (0 <=? course_index) && (course_index <? Z.of_nat len) then
             popped <- lift (py_pop cs (Z.to_nat course_index)) ;;
             let removed_course := fst popped in
             let d1 := dict_set "Courses" (snd popped) d in
             courses <- read_records_file "courses.json" ;;
             d2 <- for_first "Subject" removed_course
                     (fun _ course _ =>
                        balance <- lift (getitem (JObj d1) "Balance") ;;
                        cost <- lift (getitem (JObj course) "Cost") ;;
                        balance' <- lift (py_sub balance cost) ;;
                        ret (dict_set "Balance" balance' d1))
                     (ret d1) [] courses ;;
             write_record "students.json" (before ++ JObj d2 :: after) ;;;
             print (MsgCourseUnregistered removed_course)
           else print MsgInvalidCourseNumber)
          (print MsgInvalidNumber)
      else print MsgNoCoursesToUnregister
  | None => print MsgNoCoursesToUnregister
  end.

Definition unregister_from_course (mem_id : string) : M unit :=
  records <- read_records_file "students.json" ;;
  for_first "ID" (JStr mem_id) unregister_found
    (print MsgStudentNotFound) [] records.

End Program.

Arguments world P : clear implicits.
Arguments M P A : clear implicits.

(** ** Sequences of operations on the employee store *)

(** The two operations that change [employees.json], as the menu calls
    them: option 7 of the admin menu and option 2 of the professor menu. *)
Inductive command : Type :=
| AssignCourseToEmployee
| UnassignCourse (mem_id : string).

Definition exec {P : Platform} (c : command) : M P unit :=
  match c with
  | AssignCourseToEmployee => assign_course_to_employee
  | UnassignCourse mem_id => unassign_course mem_id
  end.

Fixpoint exec_all {P : Platform} (cs : list command) : M P unit :=
  match cs with
  | [] => ret tt
  | c :: cs' => bind (exec c) (fun _ => exec_all cs')
  end.

(** ** The file format of [FileHandler] *)

Section TextFile.

(** [json.dumps], [json.loads] ([None] is [json.JSONDecodeError]) and the
    builtin [int] are library code. *)
Variable json_dumps : json -> string.
Variable json_loads : string -> option json.
Variable builtin_int : string -> option Z.

Definition LF : ascii := "010"%char.
Definition CR : ascii := "013"%char.
Definition newline : string := String LF EmptyString.

(** [for line in file] on a file opened in text mode: a line runs up to
    and including its line end, and the line ends ["\r\n"] and ["\r"] are
    read as ["\n"]. [line] is the part of the current line already seen. *)
Fixpoint file_lines (line : string) (s : string) : list string :=
  match s with
  | EmptyString => match line with EmptyString => [] | _ => [line] end
  | String c s' =>
      if Ascii.eqb c LF then (line ++ newline)%string :: file_lines "" s'
      else if Ascii.eqb c CR then
        match s' with
        | String c' s'' =>
            if Ascii.eqb c' LF then (line ++ newline)%string :: file_lines "" s''
            else (line ++ newline)%string :: file_lines "" s'
        | EmptyString => [(line ++ newline)%string]
        end
      else file_lines (line ++ String c EmptyString)%string s'
  end.

(** [[json.loads(line) for line in lines]] *)
Fixpoint loads_all (lines : list string) : option (list json) :=
  match lines with
  | [] => Some []
  | l :: ls =>
      match json_loads l with
      | Some r =>
          match loads_all ls with
          | Some rs => Some (r :: rs)
          | None => None
          end
      | None => None
      end
  end.

Definition text_load (s : string) : option (list json) :=
  loads_all (file_lines "" s).

(** [file.write(json.dumps(record) + "\n")] for each record, from an
    empty file. *)
Fixpoint text_dump (records : list json) : string :=
  match records with
  | [] => ""
  | r :: rs => ((json_dumps r ++ newline) ++ text_dump rs)%string
  end.

#[local] Instance TextFile : Platform := {|
  content := string;
  load_lines := text_load;
  dump_lines := text_dump;
  py_int := builtin_int
|}.

End TextFile.

(** A text without line ends. *)
Fixpoint one_line (s : string) : bool :=
  match s with
  | EmptyString => true
  | String c s' => negb (Ascii.eqb c LF) && negb (Ascii.eqb c CR) && one_line s'
  end.

(** A record the format carries: [json.dumps] writes it without a line
    end, and [json.loads] reads that line back as the record. *)
Definition carried (json_dumps : json -> string)
    (json_loads : string -> option json) (r : json) : Prop :=
  one_line (json_dumps r) = true /\
  json_loads (json_dumps r ++ newline)%string = Some r.

(** ** The [Employee] class *)

Module Employee.

(** A [Course] object is known to an employee by reference: the class
    defines no [__eq__], so [in] and [list.remove] compare identities. *)
Definition course_ref : Type := nat.

Record t : Type := Build {
  name : string;
  mem_id : string;
  dob : string;
  address : list (string * string);
  department : string;
  courses : list course_ref;
  salary : Z
}.

(** [Employee(name, mem_id, dob, address, department)] *)
Definition init (name mem_id dob : string) (address : list (string * string))
    (department : string) : t :=
  Build name mem_id dob address department [] BASE_SALARY.

Definition with_courses (self : t) (cs : list course_ref) : t :=
  Build (name self) (mem_id self) (dob self) (address self) (department self)
        cs (BASE_SALARY + Z.of_nat (List.length cs) * PER_COURSE_BONUS).

(** [course in l] *)
Definition contains (l : list course_ref) (course : course_ref) : bool :=
  existsb (Nat.eqb course) l.

(** [l.remove(course)]: drops the first occurrence, [ValueError] when
    there is none. *)
Fixpoint list_remove (l : list course_ref) (course : course_ref)
  : outcome (list course_ref) :=
  match l with
  | [] => Raise ValueError
  | c :: l' =>
      if Nat.eqb course c then Ret l'
      else match list_remove l' course with
           | Ret r => Ret (c :: r)
           | Raise e => Raise e
           end
  end.

Definition assign_course (self : t) (course : course_ref) : t :=
  with_courses self (courses self ++ [course]).

(** [to_dict()]; [course_dict] gives [course.to_dict()] for each course
    the employee refers to. *)
Definition to_dict (course_dict : course_ref -> json) (self : t) : json :=
  JObj [("Name", JStr (name self)); ("ID", JStr (mem_id self));
        ("DOB", JStr (dob self));
        ("Address", JObj (map (fun kv => (fst kv, JStr (snd kv))) (address self)));
        ("Department", JStr (department self));
        ("Courses", JArr (map course_dict (courses self)));
        ("Salary", JInt (salary self))].

Definition remove_course (self : t) (course : course_ref) : outcome t :=
  if contains (courses self) course then
    match list_remove (courses self) course with
    | Ret cs => Ret (with_courses self cs)
    | Raise e => Raise e
    end
  else Ret self.

End Employee.

(** ** A platform for worked scenarios *)

(** A file that holds its records as such, and [int] on ASCII text:
    surrounding white space, an optional sign, digits with single
    underscores between them. *)
Definition is_space (c : ascii) : bool :=
  let n := nat_of_ascii c in
  ((9 <=? n) && (n <=? 13) || (28 <=? n) && (n <=? 32))%nat.

Definition digit_of (c : ascii) : option Z :=
  let n := nat_of_ascii c in
  if ((48 <=? n) && (n <=? 57))%nat then Some (Z.of_nat n - 48) else None.

Fixpoint lstrip (s : string) : string :=
  match s with
  | String c s' => if is_space c then lstrip s' else s
  | EmptyString => s
  end.

Fixpoint rev_string (acc s : string) : string :=
  match s with
  | EmptyString => acc
  | String c s' => rev_string (String c acc) s'
  end.

Definition strip (s : string) : string :=
  rev_string "" (lstrip (rev_string "" (lstrip s))).

(** [after_digit] tells whether the previous character was a digit. *)
Fixpoint digits (acc : Z) (after_digit : bool) (s : string) : option Z :=
  match s with
  | EmptyString => if after_digit then Some acc else None
  | String c s' =>
      match digit_of c with
      | Some d => digits (10 * acc + d) true s'
      | None =>
          if Ascii.eqb c "_" && after_digit then digits acc false s' else None
      end
  end.

Definition ascii_int (s : string) : option Z :=
  match strip s with
  | String "-" s' => option_map Z.opp (digits 0 false s')
  | String "+" s' => digits 0 false s'
  | s' => digits 0 false s'
  end.

Definition RecordFile : Platform := {|
  content := list json;
  load_lines := fun rs => Some rs;
  dump_lines := fun rs => rs;
  py_int := ascii_int
|}.

(** ** A worked scenario *)

(** The course of the specification's example, as [Course.to_dict] gives
    it. *)
Definition math101 : list (string * json) :=
  [("Subject", JStr "Math101"); ("CRN", JInt 1001);
   ("Start Date", JStr "2024-01-01T00:00:00");
   ("End Date", JStr "2024-05-01T00:00:00");
   ("Start Time", JStr "09:00"); ("End Time", JStr "10:00");
   ("Cost", JFloat 500%float)].

(** An employee as [add_employee] stores it. *)
Definition employee_E : json :=
  Employee.to_dict (fun _ => JNull)
    (Employee.init "E" "MEM1001" "1990-01-01T00:00:00"
       [("city", "Riyadh"); ("country", "SA"); ("zip_code", "11564")] "Math").

(** A student as [Student.to_dict] gives it. *)
Definition student_S_dict (courses : list json) (balance : json)
  : list (string * json) :=
  [("Name", JStr "S"); ("ID", JStr "MEM1002");
   ("DOB", JStr "2000-01-01T00:00:00");
   ("Address", JObj [("city", JStr "Riyadh"); ("country", JStr "SA");
                     ("zip_code", JStr "11564")]);
   ("Courses", JArr courses); ("Balance", balance)].

Definition student_S (courses : list json) (balance : json) : json :=
  JObj (student_S_dict courses balance).

(** An employee record without a [Courses] field. *)
Definition bare_employee : list (string * json) :=
  [("Name", JStr "E"); ("ID", JStr "MEM1001")].

Definition scenario_files (employees students : list json)
  : string -> option (list json) :=
  write_files "employees.json" employees
    (write_files "students.json" students
       (write_files "courses.json" [JObj math101] (fun _ => None))).

(** The three stores, and the lines the user is about to type. *)
Definition scenario (employees students : list json) (typed : list string)
  : world RecordFile :=
  World (P := RecordFile) (scenario_files employees students) typed [].

(** [json.dumps] and [json.loads] as far as the examples on text files
    use them: the empty dict is written [{}] and [None] is written [null];
    the lines [{}] and [null] are read back as such, and the other lines
    of the examples are no JSON. No other value is written there. *)
Definition sample_dumps (v : json) : string :=
  match v with
  | JObj [] => "{}"
  | _ => "null"
  end.

Definition sample_loads (line : string) : option json :=
  if String.eqb line ("{}" ++ newline)%string then Some (JObj [])
  else if String.eqb line ("null" ++ newline)%string then Some JNull
  else None.

(** ** Predicates used in the statements *)

(** The salary rule on a stored employee record. *)
Definition salary_ok (r : json) : Prop :=
  exists d cs,
    r = JObj d /\ dict_get "Courses" d = Some (JArr cs) /\
    dict_get "Salary" d =
      Some (JInt (30000 + 5000 * Z.of_nat (List.length cs))).

(** [r] is a record whose [key] is bound to something other than
    [target]: the lookup loop passes over it. *)
Definition passed (key : string) (target : json) (r : json) : Prop :=
  exists d v, r = JObj d /\ dict_get key d = Some v /\ py_eq v target = false.

(** The dict [d] is a record whose [key] is bound to [target]. *)
Definition hit (key : string) (target : json) (d : list (string * json))
  : Prop :=
  exists v, dict_get key d = Some v /\ py_eq v target = true.

(** [rs] is [pre], then the first record to match, [d], then [suf]. *)
Definition first_match (key : string) (target : json) (rs pre : list json)
    (d : list (string * json)) (suf : list json) : Prop :=
  rs = pre ++ JObj d :: suf /\ Forall (passed key target) pre /\
  hit key target d.

(** [d'] binds every key outside [keys] as [d] does. *)
Definition same_except (keys : list string) (d d' : list (string * json))
  : Prop :=
  forall k, ~ In k keys -> dict_get k d' = dict_get k d.

(** The effect on the files of an operation that looks up [mem_id] in the
    store [name]: nothing, or the store rewritten with its first matching
    record changed at the keys [keys] only and satisfying [good]. *)
Definition touches_first {P : Platform} (name mem_id : string)
    (keys : list string) (good : list (string * json) -> Prop)
    (w w' : world P) : Prop :=
  files w' = files w \/
  exists pre d suf d',
    first_match "ID" (JStr mem_id) (stored w name) pre d suf /\
    files w' = write_files name (dump_lines (pre ++ JObj d' :: suf)) (files w) /\
    same_except keys d d' /\ good d'.

(** [r] is a course record whose [Subject] is not the text [subj]. *)
Definition other_subject (subj : string) (r : json) : Prop :=
  exists d v, r = JObj d /\ dict_get "Subject" d = Some v /\ v <> JStr subj.


(** The effect on the files of the body run on the matching record [d],
    found between [before] and [after]. *)
Definition rewrites {P : Platform} (name : string) (keys : list string)
    (good : list (string * json) -> Prop) (w : world P)
    (before : list json) (d : list (string * json)) (after : list json)
    (w' : world P) : Prop :=
  files w' = files w \/
  exists d',
    files w' = write_files name (dump_lines (before ++ JObj d' :: after)) (files w) /\
    same_except keys d d' /\ good d'.

(** Every normal result of [m] is in [S]. *)
Definition returns {P : Platform} {A} (m : M P A) (S : A -> Prop) : Prop :=
  forall w a w', m w = (Ret a, w') -> S a.

(** [m] leaves the files as they are. *)
Definition keeps {P : Platform} {A} (m : M P A) : Prop :=
  forall w, files (snd (m w)) = files w.

(** From a world with the files of [w], [m] ends in a world in [Q]. *)
Definition leads {P : Platform} (w : world P) {A} (m : M P A)
    (Q : world P -> Prop) : Prop :=
  forall w1, files w1 = files w -> Q (snd (m w1)).

(** ** The [Course] and [Student] classes *)

Module Course.

(** A [datetime] is kept as the text its [isoformat()] gives, as for the
    date of birth of an employee. *)
Record t : Type := Build {
  subject : string;
  crn : Z;
  start_date : string;
  end_date : string;
  start_time : string;
  end_time : string;
  cost : float
}.

Definition to_dict (self : t) : json :=
  JObj [("Subject", JStr (subject self)); ("CRN", JInt (crn self));
        ("Start Date", JStr (start_date self));
        ("End Date", JStr (end_date self));
        ("Start Time", JStr (start_time self));
        ("End Time", JStr (end_time self));
        ("Cost", JFloat (cost self))].

End Course.

Module Student.

Record t : Type := Build {
  name : string;
  mem_id : string;
  dob : string;
  address : list (string * string);
  courses : list string;
  balance : float
}.

(** [Person.to_dict()] updated with the courses and the balance. *)
Definition to_dict (self : t) : json :=
  JObj [("Name", JStr (name self)); ("ID", JStr (mem_id self));
        ("DOB", JStr (dob self));
        ("Address", JObj (map (fun kv => (fst kv, JStr (snd kv))) (address self)));
        ("Courses", JArr (map JStr (courses self)));
        ("Balance", JFloat (balance self))].

End Student.

(** ** Identifiers, additions and views *)

(** [str(n)] for an int, as an f-string prints it. *)
Definition str (n : Z) : string :=
  DecimalString.NilZero.string_of_int (Z.to_int n).

(** What the additions and the views print, kept apart from the reports
    of the relationship operations: among themselves these lines are in
    the order printed. *)
Inductive notice : Type :=
| NoteEmployeeAdded
| NoteStudentAdded
| NoteCourseAdded
| NoteMonthlySalary (salary : json)
| NoteBalance (balance : json).

Section Catalog.
Context {P : Platform}.

(** [datetime.strptime(s, "%Y-%m-%d")], as the text [isoformat()] gives
    for it, and the builtin [float] on a typed line; [None] is
    [ValueError]. *)
Variable strptime : string -> option string.
Variable py_float : string -> option float.

(** The state of the process: the two global counters, the lines printed
    by the additions and the views, and the files and console. *)
Record session : Type := Session {
  crn_counter : Z;
  mem_id_counter : Z;
  notices : list notice;
  state : world P
}.

(** The process starts with both counters at 1000. *)
Definition start (w : world P) : session := Session 1000 1000 [] w.

Definition Proc (A : Type) : Type := session -> outcome A * session.

Definition sret {A} (a : A) : Proc A := fun s => (Ret a, s).

Definition sbind {A B} (m : Proc A) (k : A -> Proc B) : Proc B :=
  fun s =>
    match m s with
    | (Ret a, s') => k a s'
    | (Raise e, s') => (Raise e, s')
    end.

(** An operation on the files and the console, run in the process. *)
Definition on_world {A} (m : M P A) : Proc A :=
  fun s =>
    (fst (m (state s)),
     Session (crn_counter s) (mem_id_counter s) (notices s) (snd (m (state s)))).

Definition note (n : notice) : Proc unit :=
  fun s =>
    (Ret tt,
     Session (crn_counter s) (mem_id_counter s) (notices s ++ [n]) (state s)).

(** A conversion of typed text that raises [ValueError] when it fails. *)
Definition convert {A} (o : option A) : Proc A :=
  fun s => (match o with Some a => Ret a | None => Raise ValueError end, s).

Notation "x <~ m ;; k" := (sbind m (fun x => k))
  (at level 61, m at next level, right associativity).
Notation "m ;;~ k" := (sbind m (fun _ => k))
  (at level 61, right associativity).

Definition generate_crn : Proc Z :=
  fun s =>
    (Ret (crn_counter s + 1),
     Session (crn_counter s + 1) (mem_id_counter s) (notices s) (state s)).

Definition generate_mem_id : Proc string :=
  fun s =>
    (Ret ("MEM" ++ str (mem_id_counter s + 1))%string,
     Session (crn_counter s) (mem_id_counter s + 1) (notices s) (state s)).

(** [n] calls in a row, with the identifiers they return. *)
Fixpoint generate_crns (n : nat) : Proc (list Z) :=
  match n with
  | O => sret []
  | S n' =>
      c <~ generate_crn ;; cs <~ generate_crns n' ;; sret (c :: cs)
  end.

Fixpoint generate_mem_ids (n : nat) : Proc (list string) :=
  match n with
  | O => sret []
  | S n' =>
      i <~ generate_mem_id ;; ids <~ generate_mem_ids n' ;; sret (i :: ids)
  end.

(** The three address lines, in the order they are asked. *)
Definition input_address : Proc (list (string * string)) :=
  city <~ on_world input ;;
  country <~ on_world input ;;
  zip_code <~ on_world input ;;
  sret [("city", city); ("country", country); ("zip_code", zip_code)].

(** [records = read_records_file(); records.append(record);
    write_record(records)] on the store [name]. *)
Definition append_record (name : string) (record : json) : Proc unit :=
  records <~ on_world (read_records_file name) ;;
  on_world (write_record name (records ++ [record])).

Definition add_employee : Proc unit :=
  name <~ on_world input ;;
  mem_id <~ generate_mem_id ;;
  line <~ on_world input ;;
  dob <~ convert (strptime line) ;;
  address <~ input_address ;;
  department <~ on_world input ;;
  let employee := Employee.init name mem_id dob address department in
  append_record "employees.json" (Employee.to_dict (fun _ => JNull) employee) ;;~
  note NoteEmployeeAdded.

Definition add_student : Proc unit :=
  name <~ on_world input ;;
  mem_id <~ generate_mem_id ;;
  line <~ on_world input ;;
  dob <~ convert (strptime line) ;;
  address <~ input_address ;;
  let student := Student.Build name mem_id dob address [] 0%float in
  append_record "students.json" (Student.to_dict student) ;;~
  note NoteStudentAdded.

Definition add_course : Proc unit :=
  subject <~ on_world input ;;
  crn <~ generate_crn ;;
  line1 <~ on_world input ;;
  start_date <~ convert (strptime line1) ;;
  line2 <~ on_world input ;;
  end_date <~ convert (strptime line2) ;;
  start_time <~ on_world input ;;
  end_time <~ on_world input ;;
  line3 <~ on_world input ;;
  cost <~ convert (py_float line3) ;;
  let course :=
    Course.Build subject crn start_date end_date start_time end_time cost in
  append_record "courses.json" (Course.to_dict course) ;;~
  note NoteCourseAdded.

(** The loop of [view_monthly_salary] and [check_student_balance]: the
    value of [field] in the first record whose [ID] is [mem_id], or the
    report that there is none. *)
Definition lookup_field (name field : string) (missing : msg)
    (mem_id : string) : M P (option json) :=
  bind (read_records_file name) (fun records =>
  for_first "ID" (JStr mem_id)
    (fun _ d _ => bind (lift (getitem (JObj d) field)) (fun v => ret (Some v)))
    (bind (print missing) (fun _ => ret None)) [] records).

Definition view_monthly_salary (mem_id : string) : Proc unit :=
  found <~ on_world
    (lookup_field "employees.json" "Salary" MsgProfessorNotFound mem_id) ;;
  match found with
  | Some salary => note (NoteMonthlySalary salary)
  | None => sret tt
  end.

Definition check_student_balance (mem_id : string) : Proc unit :=
  found <~ on_world
    (lookup_field "students.json" "Balance" MsgStudentNotFound mem_id) ;;
  match found with
  | Some balance => note (NoteBalance balance)
  | None => sret tt
  end.

End Catalog.

Arguments session P : clear implicits.
Arguments Proc P A : clear implicits.

(** [strptime] and [float] on the lines typed in the scenarios; the other
    lines typed there are no dates and no numbers. *)
Definition sample_strptime (s : string) : option string :=
  if String.eqb s "2024-01-01" then Some "2024-01-01T00:00:00"
  else if String.eqb s "2024-05-01" then Some "2024-05-01T00:00:00"
  else if String.eqb s "1990-01-01" then Some "1990-01-01T00:00:00"
  else None.

Definition sample_float (s : string) : option float :=
  if String.eqb s "500" then Some 500%float else None.

(** The methods of an [Employee] object, to speak of sequences of calls. *)
Inductive method : Type :=
| CallAssign (course : Employee.course_ref)
| CallRemove (course : Employee.course_ref).

Fixpoint calls (self : Employee.t) (ms : list method) : outcome Employee.t :=
  match ms with
  | [] => Ret self
  | CallAssign c :: ms' => calls (Employee.assign_course self c) ms'
  | CallRemove c :: ms' =>
      match Employee.remove_course self c with
      | Ret self' => calls self' ms'
      | Raise e => Raise e
      end
  end.

(** The salary rule on an [Employee] object. *)
Definition salary_in_step (self : Employee.t) : Prop :=
  Employee.salary self =
    30000 + 5000 * Z.of_nat (List.length (Employee.courses self)).

(** A file that holds its records as such, or something that does not
    parse ([None]). *)
Definition FragileFile : Platform := {|
  content := option (list json);
  load_lines := fun c => c;
  dump_lines := fun rs => Some rs;
  py_int := ascii_int
|}.

(** * Properties *)

(** ** The arithmetic and comparisons on concrete values *)

Example float_eq_int_1001 : float_eq_int 1001%float 1001 = true.
Proof. vm_compute. reflexivity. Qed.

Example float_ge_int_9999 : float_ge_int 9999.5%float 10000 = false.
Proof. vm_compute. reflexivity. Qed.

Example py_add_9999_500 :
  py_add (JFloat 9999%float) (JFloat 500%float) = Ret (JFloat 10499%float).
Proof. vm_compute. reflexivity. Qed.

Example py_add_int_float :
  py_add (JInt 1) (JFloat 0.5%float) = Ret (JFloat 1.5%float).
Proof. vm_compute. reflexivity. Qed.

Example py_eq_true_one : py_eq (JBool true) (JFloat 1%float) = true.
Proof. vm_compute. reflexivity. Qed.

Example ascii_int_1001 : ascii_int " 1_001 " = Some 1001.
Proof. reflexivity. Qed.

Example ascii_int_rejects : ascii_int "1__0" = None /\ ascii_int "+ 1" = None.
Proof. split; reflexivity. Qed.

(** ** Dictionaries *)

Lemma dict_get_set_same k v d : dict_get k (dict_set k v d) = Some v.
Proof.
  induction d as [|[k' v'] d IH]; simpl.
  - now rewrite String.eqb_refl.
  - destruct (String.eqb k k') eqn:E; simpl; rewrite E; auto.
Qed.

Lemma dict_get_set_other k k' v d :
  k <> k' -> dict_get k' (dict_set k v d) = dict_get k' d.
Proof.
  intros Hne. induction d as [|[k0 v0] d IH]; simpl.
  - destruct (String.eqb_spec k' k); congruence.
  - destruct (String.eqb_spec k k0) as [->|Hk]; simpl.
    + destruct (String.eqb_spec k' k0); congruence.
    + now rewrite IH.
Qed.

Lemma same_except_refl keys d : same_except keys d d.
Proof. intros k _. reflexivity. Qed.

Lemma same_except_set keys k v d d' :
  In k keys -> same_except keys d d' -> same_except keys d (dict_set k v d').
Proof.
  intros Hin H k' Hk'. rewrite dict_get_set_other; [now apply H|].
  intros ->. contradiction.
Qed.

(** A string equals only the same string. *)
Lemma py_eq_str v s : py_eq v (JStr s) = true <-> v = JStr s.
Proof.
  unfold py_eq. destruct v; simpl; try (split; discriminate).
  rewrite String.eqb_eq. split; congruence.
Qed.

Section Facts.
Context {P : Platform}.

(** ** The lookup loop *)

Lemma for_first_hit {A} key target
    (found : list json -> list (string * json) -> list json -> M P A)
    not_found pre : forall before d suf,
  Forall (passed key target) pre -> hit key target d ->
  for_first key target found not_found before (pre ++ JObj d :: suf)
  = found (before ++ pre) d suf.
Proof.
  induction pre as [|r pre IH]; intros before d suf Hpre [v [Hv Heq]]; simpl.
  - rewrite Hv, Heq, app_nil_r. reflexivity.
  - inversion Hpre as [|? ? [dr [vr [-> [Hr Hne]]]] Hrest]; subst.
    rewrite Hr, Hne, IH, <- app_assoc; auto. now exists v.
Qed.

Lemma for_first_miss {A} key target
    (found : list json -> list (string * json) -> list json -> M P A)
    not_found rs : forall before,
  Forall (passed key target) rs ->
  for_first key target found not_found before rs = not_found.
Proof.
  induction rs as [|r rs IH]; intros before Hrs; simpl; auto.
  inversion Hrs as [|? ? [dr [vr [-> [Hr Hne]]]] Hrest]; subst.
  rewrite Hr, Hne. now apply IH.
Qed.

(** Every scan ends in one of three ways. *)
Lemma for_first_cases key target rs :
  (exists pre d suf, first_match key target rs pre d suf) \/
  Forall (passed key target) rs \/
  (exists e, forall A
      (found : list json -> list (string * json) -> list json -> M P A)
      not_found before,
      for_first key target found not_found before rs = raise e).
Proof.
  induction rs as [|r rs IH].
  - right; left. constructor.
  - destruct r as [| | | | | |d];
      try (right; right; exists TypeError; reflexivity).
    destruct (dict_get key d) as [v|] eqn:Hv;
      [|right; right; exists KeyError; intros; simpl; now rewrite Hv].
    destruct (py_eq v target) eqn:Heq.
    + left. exists [], d, rs. repeat split; auto. now exists v.
    + assert (Hp : passed key target (JObj d)) by (exists d, v; auto).
      destruct IH as [[pre [d' [suf [-> [Hpre Hhit]]]]]|[Hall|[e He]]].
      * left. exists (JObj d :: pre), d', suf. repeat split; auto.
      * right; left. auto.
      * right; right. exists e. intros. simpl. rewrite Hv, Heq. apply He.
Qed.

(** ** What an operation does to the files *)

Lemma keeps_ret {A} (a : A) : keeps (ret a).
Proof. intros w; reflexivity. Qed.

Lemma keeps_lift {A} (o : outcome A) : keeps (lift o).
Proof. intros w; reflexivity. Qed.

Lemma keeps_raise {A} e : keeps (@raise P A e).
Proof. intros w; reflexivity. Qed.

Lemma keeps_print m : keeps (print m).
Proof. intros w; reflexivity. Qed.

Lemma keeps_input : keeps input.
Proof. intros w; unfold input. destruct (stdin w); reflexivity. Qed.

Lemma keeps_int s : keeps (int s).
Proof. intros w; unfold int. destruct (py_int s); reflexivity. Qed.

Lemma keeps_bind {A B} (m : M P A) (k : A -> M P B) :
  keeps m -> (forall a, keeps (k a)) -> keeps (bind m k).
Proof.
  intros Hm Hk w. unfold bind. specialize (Hm w).
  destruct (m w) as [[a|e] w1]; simpl in *; auto.
  now rewrite Hk.
Qed.

Lemma keeps_read name : keeps (read_records_file name).
Proof.
  intros w. unfold read_records_file.
  destruct (files w name) as [c|]; [|reflexivity].
  destruct (load_lines c); reflexivity.
Qed.

Lemma keeps_try {A} (m h : M P A) : keeps m -> keeps h -> keeps (try_ValueError m h).
Proof.
  intros Hm Hh w. unfold try_ValueError. specialize (Hm w).
  destruct (m w) as [[a|[]] w1]; simpl in *; auto.
  now rewrite Hh.
Qed.

Lemma keeps_for_first {A} key target
    (found : list json -> list (string * json) -> list json -> M P A)
    not_found rs : forall before,
  (forall b d a, keeps (found b d a)) -> keeps not_found ->
  keeps (for_first key target found not_found before rs).
Proof.
  induction rs as [|r rs IH]; intros before Hf Hn; simpl; auto.
  destruct r; try apply keeps_raise.
  destruct (dict_get key kvs); [|apply keeps_raise].
  destruct (py_eq j target); auto.
Qed.

Lemma read_records_file_fst name w :
  fst (read_records_file name w) = Ret (stored w name).
Proof.
  unfold read_records_file, stored.
  destruct (files w name) as [c|]; [|reflexivity].
  destruct (load_lines c); reflexivity.
Qed.

Lemma stored_files w w1 name : files w1 = files w -> stored w1 name = stored w name.
Proof. intros H. unfold stored. now rewrite H. Qed.

(** A read that finds records reports nothing. *)
Lemma read_records_file_some name w :
  stored w name <> [] ->
  read_records_file name w = (Ret (stored w name), w).
Proof.
  unfold read_records_file, stored.
  destruct (files w name) as [c|]; [|congruence].
  destruct (load_lines c); [reflexivity|congruence].
Qed.

(** Rules to follow an operation step by step. *)

Lemma leads_keeps w {A} (m : M P A) (Q : world P -> Prop) :
  keeps m -> (forall w2, files w2 = files w -> Q w2) -> leads w m Q.
Proof. intros Hm HQ w1 H1. apply HQ. now rewrite Hm. Qed.

Lemma leads_bind w {A B} (m : M P A) (k : A -> M P B) (Q : world P -> Prop) :
  keeps m -> (forall w2, files w2 = files w -> Q w2) ->
  (forall a, leads w (k a) Q) -> leads w (bind m k) Q.
Proof.
  intros Hm HQ Hk w1 H1. unfold bind. specialize (Hm w1).
  destruct (m w1) as [[a|e] w2]; simpl in *.
  - apply Hk. congruence.
  - apply HQ. congruence.
Qed.

Lemma leads_lift w {A B} (o : outcome A) (k : A -> M P B) (Q : world P -> Prop) :
  (forall w2, files w2 = files w -> Q w2) ->
  (forall a, o = Ret a -> leads w (k a) Q) -> leads w (bind (lift o) k) Q.
Proof.
  intros HQ Hk w1 H1. unfold bind, lift.
  destruct o as [a|e]; simpl; [now apply Hk | now apply HQ].
Qed.

Lemma leads_read w {B} name (k : list json -> M P B) (Q : world P -> Prop) :
  leads w (k (stored w name)) Q -> leads w (bind (read_records_file name) k) Q.
Proof.
  intros Hk w1 H1. unfold bind.
  pose proof (read_records_file_fst name w1) as Hf.
  pose proof (keeps_read name w1) as Hs.
  destruct (read_records_file name w1) as [o w2]; simpl in *; subst o.
  rewrite (stored_files w w1) by assumption. apply Hk. congruence.
Qed.

Lemma leads_write w {B} name rs (k : unit -> M P B) (Q : world P -> Prop) :
  (forall a, keeps (k a)) ->
  (forall w2, files w2 = write_files name (dump_lines rs) (files w) -> Q w2) ->
  leads w (bind (write_record name rs) k) Q.
Proof.
  intros Hk HQ w1 H1. unfold bind, write_record. apply HQ.
  rewrite Hk. simpl. now rewrite H1.
Qed.

Lemma leads_try w {A} (m h : M P A) (Q : world P -> Prop) :
  (forall w2 w3, files w3 = files w2 -> Q w2 -> Q w3) ->
  leads w m Q -> keeps h -> leads w (try_ValueError m h) Q.
Proof.
  intros HQ Hm Hh w1 H1. unfold try_ValueError. specialize (Hm w1 H1).
  destruct (m w1) as [[a|[]] w2]; simpl in *; auto.
  apply (HQ w2); auto.
Qed.

Lemma leads_for_first w {A} key target
    (found : list json -> list (string * json) -> list json -> M P A)
    not_found before rs (Q : world P -> Prop) :
  (forall w2, files w2 = files w -> Q w2) ->
  (forall pre d suf, first_match key target rs pre d suf ->
                     leads w (found (before ++ pre) d suf) Q) ->
  leads w not_found Q ->
  leads w (for_first key target found not_found before rs) Q.
Proof.
  intros HQ Hf Hn.
  destruct (for_first_cases key target rs)
    as [[pre [d [suf Hm]]]|[Hall|[e He]]].
  - pose proof Hm as [-> [Hpre Hhit]]. rewrite for_first_hit by assumption.
    now apply Hf.
  - now rewrite for_first_miss.
  - rewrite He. apply leads_keeps; auto. apply keeps_raise.
Qed.

Lemma touches_first_keep name mem_id keys good (w w2 : world P) :
  files w2 = files w -> touches_first name mem_id keys good w w2.
Proof. intros H. now left. Qed.

Lemma touches_first_files name mem_id keys good (w w2 w3 : world P) :
  files w3 = files w2 ->
  touches_first name mem_id keys good w w2 ->
  touches_first name mem_id keys good w w3.
Proof.
  intros H [H2|[pre [d [suf [d' [Hm [H2 [Hs Hg]]]]]]]].
  - left. congruence.
  - right. exists pre, d, suf, d'.
    split; [exact Hm|]. split; [now rewrite H|]. now split.
Qed.

Lemma leads_bind_returns w {A B} (m : M P A) (k : A -> M P B) (S : A -> Prop)
    (Q : world P -> Prop) :
  keeps m -> returns m S -> (forall w2, files w2 = files w -> Q w2) ->
  (forall a, S a -> leads w (k a) Q) -> leads w (bind m k) Q.
Proof.
  intros Hm HS HQ Hk w1 H1. unfold bind. specialize (Hm w1).
  destruct (m w1) as [[a|e] w2] eqn:E; simpl in *.
  - apply Hk; [eapply HS; eauto | congruence].
  - apply HQ. congruence.
Qed.

Lemma rewrites_keep name keys good (w : world P) before d after w2 :
  files w2 = files w -> rewrites name keys good w before d after w2.
Proof. intros H. now left. Qed.

Lemma rewrites_files name keys good (w : world P) before d after w2 w3 :
  files w3 = files w2 ->
  rewrites name keys good w before d after w2 ->
  rewrites name keys good w before d after w3.
Proof.
  intros H [H2|[d' [H2 Hrest]]].
  - left. congruence.
  - right. exists d'. split; [now rewrite H | exact Hrest].
Qed.

Lemma rewrites_touches name mem_id keys good (w : world P) pre d suf w2 :
  first_match "ID" (JStr mem_id) (stored w name) pre d suf ->
  rewrites name keys good w ([] ++ pre) d suf w2 ->
  touches_first name mem_id keys good w w2.
Proof.
  intros Hm [H|[d' [H Hrest]]]; [now left|].
  right. exists pre, d, suf, d'. split; [exact Hm|]. split; [exact H|exact Hrest].
Qed.

Ltac keep := intros; first [apply rewrites_keep | apply touches_first_keep]; assumption.

Ltac keeps_tail :=
  repeat first
    [ apply keeps_print | apply keeps_lift | apply keeps_ret | apply keeps_raise
    | apply keeps_bind; [|intros] ].

(** The salary written is the rule applied to the list written. *)
Lemma salary_ok_set d xs salary :
  salary_for (JArr xs) = Ret salary ->
  salary_ok (JObj (dict_set "Salary" salary (dict_set "Courses" (JArr xs) d))).
Proof.
  intros H. simpl in H. injection H as <-.
  exists (dict_set "Salary"
            (JInt (BASE_SALARY + Z.of_nat (List.length xs) * PER_COURSE_BONUS))
            (dict_set "Courses" (JArr xs) d)), xs.
  split; [reflexivity|]. split.
  - rewrite dict_get_set_other by discriminate. apply dict_get_set_same.
  - rewrite dict_get_set_same. unfold BASE_SALARY, PER_COURSE_BONUS.
    do 2 f_equal. lia.
Qed.

Lemma assign_found_effect w before d after course :
  @leads P w _ (assign_found before d after course)
    (rewrites "employees.json" ["Courses"; "Salary"]
       (fun d' => salary_ok (JObj d')) w before d after).
Proof.
  unfold assign_found.
  set (d1 := match dict_get "Courses" d with
             | None => dict_set "Courses" (JArr []) d
             | Some _ => d
             end).
  assert (Hd1 : same_except ["Courses"; "Salary"] d d1).
  { subst d1. destruct (dict_get "Courses" d).
    - apply same_except_refl.
    - apply same_except_set; [simpl; auto | apply same_except_refl]. }
  apply leads_lift; [keep|]. intros cs Hcs.
  apply leads_lift; [keep|]. intros cs' Hcs'.
  apply leads_lift; [keep|]. intros salary Hsal.
  apply leads_write; [intros; keeps_tail|].
  intros w2 H2. right. eexists. split; [exact H2|].
  destruct cs; try discriminate. injection Hcs' as <-. split.
  - apply same_except_set; [simpl; auto|].
    apply same_except_set; [simpl; auto|]. exact Hd1.
  - now apply salary_ok_set.
Qed.

Lemma unassign_found_effect w before d after :
  @leads P w _ (unassign_found before d after)
    (rewrites "employees.json" ["Courses"; "Salary"]
       (fun d' => salary_ok (JObj d')) w before d after).
Proof.
  unfold unassign_found.
  destruct (dict_get "Courses" d) as [cs|];
    [|apply leads_keeps; [apply keeps_print|keep]].
  destruct (truthy cs); [|apply leads_keeps; [apply keeps_print|keep]].
  apply leads_lift; [keep|]. intros items _.
  apply leads_lift; [keep|]. intros _ _.
  apply leads_try; [apply rewrites_files| |apply keeps_print].
  apply leads_bind; [apply keeps_input|keep|]. intros line.
  apply leads_bind; [apply keeps_int|keep|]. intros n.
  apply leads_lift; [keep|]. intros len _.
  destruct ((0 <=? n - 1) && (n - 1 <? Z.of_nat len));
    [|apply leads_keeps; [apply keeps_print|keep]].
  apply leads_lift; [keep|]. intros [removed cs'] Hpop.
  apply leads_lift; [keep|]. intros salary Hsal.
  apply leads_write; [intros; keeps_tail|].
  intros w2 H2. right. eexists. split; [exact H2|].
  destruct cs; try discriminate. unfold py_pop in Hpop.
  destruct (nth_error xs (Z.to_nat (n - 1))); try discriminate.
  injection Hpop as _ <-. split.
  - apply same_except_set; [simpl; auto|].
    apply same_except_set; [simpl; auto|]. apply same_except_refl.
  - now apply salary_ok_set.
Qed.

Lemma leads_weaken w {A} (m : M P A) (Q Q' : world P -> Prop) :
  (forall w2, Q w2 -> Q' w2) -> leads w m Q -> leads w m Q'.
Proof. intros H Hm w1 H1. apply H. now apply Hm. Qed.

Lemma keeps_view_courses : keeps (@view_courses P).
Proof.
  unfold view_courses. apply keeps_bind; [apply keeps_read|].
  intros [|r rs]; [apply keeps_print | apply keeps_lift].
Qed.

Lemma register_found_effect w before d after course :
  @leads P w _ (register_found before d after course)
    (rewrites "students.json" ["Courses"; "Balance"] (fun _ => True)
       w before d after).
Proof.
  unfold register_found.
  apply leads_lift; [keep|]. intros cs _.
  destruct cs; try (apply leads_keeps; [apply keeps_raise|keep]).
  apply leads_lift; [keep|]. intros subject _.
  apply leads_lift; [keep|]. intros cs' _.
  apply leads_lift; [keep|]. intros balance _.
  apply leads_lift; [keep|]. intros cost _.
  apply leads_lift; [keep|]. intros balance' _.
  apply leads_write; [intros; keeps_tail|].
  intros w2 H2. right. eexists. split; [exact H2|]. split; [|exact I].
  apply same_except_set; [simpl; auto|].
  apply same_except_set; [simpl; auto|]. apply same_except_refl.
Qed.

(** The deduction changes the balance and nothing else. *)
Lemma deduct_returns removed d1 courses : forall before,
  returns
    (for_first (P:=P) "Subject" removed
       (fun _ course _ =>
          bind (lift (getitem (JObj d1) "Balance")) (fun balance =>
          bind (lift (getitem (JObj course) "Cost")) (fun cost =>
          bind (lift (py_sub balance cost)) (fun balance' =>
          ret (dict_set "Balance" balance' d1)))))
       (ret d1) before courses)
    (fun d2 => same_except ["Courses"; "Balance"] d1 d2).
Proof.
  induction courses as [|c courses IH]; intros before w a w' H; simpl in H.
  - unfold ret in H. injection H as <- _. apply same_except_refl.
  - destruct c; try discriminate.
    destruct (dict_get "Subject" kvs); try discriminate.
    destruct (py_eq j removed); [|eapply IH; eauto].
    unfold bind, lift, ret in H.
    clear IH.
    repeat match type of H with
           | context [match ?x with _ => _ end] =>
               destruct x; try discriminate
           end.
    injection H as <- _.
    apply same_except_set; [simpl; auto | apply same_except_refl].
Qed.

Lemma unregister_found_effect w before d after :
  @leads P w _ (unregister_found before d after)
    (rewrites "students.json" ["Courses"; "Balance"] (fun _ => True)
       w before d after).
Proof.
  unfold unregister_found.
  destruct (dict_get "Courses" d) as [cs|];
    [|apply leads_keeps; [apply keeps_print|keep]].
  destruct (truthy cs); [|apply leads_keeps; [apply keeps_print|keep]].
  apply leads_lift; [keep|]. intros _ _.
  apply leads_try; [apply rewrites_files| |apply keeps_print].
  apply leads_bind; [apply keeps_input|keep|]. intros line.
  apply leads_bind; [apply keeps_int|keep|]. intros n.
  apply leads_lift; [keep|]. intros len _.
  destruct ((0 <=? n - 1) && (n - 1 <? Z.of_nat len));
    [|apply leads_keeps; [apply keeps_print|keep]].
  apply leads_lift; [keep|]. intros popped _.
  apply leads_read.
  eapply leads_bind_returns; [| apply deduct_returns | keep |].
  - apply keeps_for_first; [intros; keeps_tail | apply keeps_ret].
  - intros d2 Hd2. apply leads_write; [intros; keeps_tail|].
    intros w2 H2. right. exists d2. split; [exact H2|]. split; [|exact I].
    intros k Hk. rewrite Hd2 by exact Hk.
    apply same_except_set with (keys := ["Courses"; "Balance"]);
      [simpl; auto | apply same_except_refl | exact Hk].
Qed.

(** What each operation does to the files, whatever the state it runs
    in and however it ends. *)

Lemma assign_course_with_effect mem_id crn (w : world P) :
  touches_first "employees.json" mem_id ["Courses"; "Salary"]
    (fun d' => salary_ok (JObj d')) w (snd (assign_course_with mem_id crn w)).
Proof.
  assert (H : leads w (assign_course_with mem_id crn)
                (touches_first "employees.json" mem_id ["Courses"; "Salary"]
                   (fun d' => salary_ok (JObj d')) w)).
  { unfold assign_course_with. apply leads_read. apply leads_read.
    apply leads_for_first; [keep| |apply leads_keeps; [apply keeps_print|keep]].
    intros pre d suf Hm.
    apply leads_weaken with (1 := fun w2 => rewrites_touches _ _ _ _ w pre d suf w2 Hm).
    apply leads_for_first; [keep| |apply leads_keeps; [apply keeps_print|keep]].
    intros _ course _ _. apply assign_found_effect. }
  now apply H.
Qed.

Lemma assign_course_to_employee_effect (w : world P) :
  match stdin w with
  | [] => files (snd (assign_course_to_employee w)) = files w
  | mem_id :: _ =>
      touches_first "employees.json" mem_id ["Courses"; "Salary"]
        (fun d' => salary_ok (JObj d')) w (snd (assign_course_to_employee w))
  end.
Proof.
  unfold assign_course_to_employee, bind, input, int.
  destruct (stdin w) as [|mem_id [|line ls]]; simpl; [reflexivity|now left|].
  destruct (py_int line) as [crn|]; simpl; [|now left].
  apply touches_first_files with
    (w2 := snd (assign_course_with mem_id crn (World (files w) ls (stdout w)))).
  - reflexivity.
  - pose proof (assign_course_with_effect mem_id crn (World (files w) ls (stdout w))) as H.
    exact H.
Qed.

Lemma unassign_course_with_effect mem_id (w : world P) :
  touches_first "employees.json" mem_id ["Courses"; "Salary"]
    (fun d' => salary_ok (JObj d')) w (snd (unassign_course mem_id w)).
Proof.
  assert (H : leads w (unassign_course mem_id)
                (touches_first "employees.json" mem_id ["Courses"; "Salary"]
                   (fun d' => salary_ok (JObj d')) w)).
  { unfold unassign_course. apply leads_read.
    apply leads_for_first; [keep| |apply leads_keeps; [apply keeps_print|keep]].
    intros pre d suf Hm.
    apply leads_weaken with (1 := fun w2 => rewrites_touches _ _ _ _ w pre d suf w2 Hm).
    apply unassign_found_effect. }
  now apply H.
Qed.

Lemma register_for_course_effect mem_id (w : world P) :
  touches_first "students.json" mem_id ["Courses"; "Balance"]
    (fun _ => True) w (snd (register_for_course mem_id w)).
Proof.
  assert (H : leads w (register_for_course mem_id)
                (touches_first "students.json" mem_id ["Courses"; "Balance"]
                   (fun _ => True) w)).
  { unfold register_for_course. apply leads_read.
    apply leads_for_first; [keep| |apply leads_keeps; [apply keeps_print|keep]].
    intros pre d suf Hm.
    apply leads_weaken with (1 := fun w2 => rewrites_touches _ _ _ _ w pre d suf w2 Hm).
    apply leads_lift; [keep|]. intros cs _.
    apply leads_lift; [keep|]. intros n _.
    destruct (5 <=? n)%nat; [apply leads_keeps; [apply keeps_print|keep]|].
    apply leads_lift; [keep|]. intros balance _.
    apply leads_lift; [keep|]. intros high _.
    destruct high; [apply leads_keeps; [apply keeps_print|keep]|].
    apply leads_bind; [apply keeps_view_courses|keep|]. intros _.
    apply leads_try; [apply rewrites_files| |apply keeps_print].
    apply leads_bind; [apply keeps_input|keep|]. intros line.
    apply leads_bind; [apply keeps_int|keep|]. intros crn.
    apply leads_read.
    apply leads_for_first; [keep| |apply leads_keeps; [apply keeps_print|keep]].
    intros _ course _ _. apply register_found_effect. }
  now apply H.
Qed.

Lemma unregister_from_course_effect mem_id (w : world P) :
  touches_first "students.json" mem_id ["Courses"; "Balance"]
    (fun _ => True) w (snd (unregister_from_course mem_id w)).
Proof.
  assert (H : leads w (unregister_from_course mem_id)
                (touches_first "students.json" mem_id ["Courses"; "Balance"]
                   (fun _ => True) w)).
  { unfold unregister_from_course. apply leads_read.
    apply leads_for_first; [keep| |apply leads_keeps; [apply keeps_print|keep]].
    intros pre d suf Hm.
    apply leads_weaken with (1 := fun w2 => rewrites_touches _ _ _ _ w pre d suf w2 Hm).
    apply unregister_found_effect. }
  now apply H.
Qed.

Lemma touches_first_weaken name mem_id keys (good good' : _ -> Prop)
    (w w2 : world P) :
  (forall d, good d -> good' d) ->
  touches_first name mem_id keys good w w2 ->
  touches_first name mem_id keys good' w w2.
Proof.
  intros Hg [H|[pre [d [suf [d' [Hm [H [Hs Hd]]]]]]]]; [now left|].
  right. exists pre, d, suf, d'. auto.
Qed.

(** ** The salary rule over runs *)







End Facts.

(** ** Runs in which the lookups succeed *)

Section Runs.
Context {P : Platform}.

Lemma first_match_stored key target (w : world P) name pre d suf :
  first_match key target (stored w name) pre d suf ->
  read_records_file name w = (Ret (pre ++ JObj d :: suf), w).
Proof.
  intros [Hrs _]. rewrite <- Hrs. apply read_records_file_some.
  rewrite Hrs. now destruct pre.
Qed.

Lemma for_first_match {A} key target
    (found : list json -> list (string * json) -> list json -> M P A)
    not_found rs pre d suf :
  first_match key target rs pre d suf ->
  for_first key target found not_found [] rs = found pre d suf.
Proof.
  intros [-> [Hpre Hhit]]. now rewrite for_first_hit.
Qed.

(** A student with five courses, or with a balance of 10000 or more, is
    turned away before anything is asked or written. *)
Lemma register_refused (w : world P) mem_id pre d suf cs n :
  first_match "ID" (JStr mem_id) (stored w "students.json") pre d suf ->
  dict_get "Courses" d = Some cs ->
  py_len cs = Ret n ->
  ((5 <= n)%nat \/
   exists b, dict_get "Balance" d = Some b /\ py_ge_int b 10000 = Ret true) ->
  exists m,
    (m = MsgTooManyCourses \/ m = MsgBalanceTooHigh) /\
    register_for_course mem_id w =
      (Ret tt, World (files w) (stdin w) (stdout w ++ [m])).
Proof.
  intros Hm Hcs Hn Hor.
  unfold register_for_course, bind.
  rewrite (first_match_stored _ _ _ _ _ _ _ Hm).
  rewrite (for_first_match _ _ _ _ _ pre d suf)
    by (destruct Hm as [_ Hm]; now split).
  unfold lift, getitem. rewrite Hcs, Hn.
  destruct (5 <=? n)%nat eqn:E5.
  - exists MsgTooManyCourses. split; [now left|reflexivity].
  - destruct Hor as [H5|[b [Hb Hge]]].
    + apply Nat.leb_gt in E5. lia.
    + rewrite Hb, Hge. exists MsgBalanceTooHigh. split; [now right|reflexivity].
Qed.

Lemma first_match_nonempty key target (rs pre : list json) d suf :
  first_match key target rs pre d suf -> rs <> [].
Proof. intros [-> _]. now destruct pre. Qed.

(** The run of [assign_course_with] when the employee and the course are
    found: [d1] is the record once [Courses] is there, [xs] the courses it
    then lists. *)
Lemma assign_course_with_run (w : world P) mem_id crn pre d suf cpre c csuf d1 xs
    name subject :
  first_match "ID" (JStr mem_id) (stored w "employees.json") pre d suf ->
  first_match "CRN" (JInt crn) (stored w "courses.json") cpre c csuf ->
  d1 = match dict_get "Courses" d with
       | None => dict_set "Courses" (JArr []) d
       | Some _ => d
       end ->
  dict_get "Courses" d1 = Some (JArr xs) ->
  dict_get "Subject" c = Some subject ->
  dict_get "Name" d = Some name ->
  assign_course_with mem_id crn w =
    (Ret tt,
     World
       (write_files "employees.json"
          (dump_lines
             (pre ++
              JObj (dict_set "Salary"
                      (JInt (30000 + Z.of_nat (List.length xs + 1) * 5000))
                      (dict_set "Courses" (JArr (xs ++ [JObj c])) d1)) :: suf))
          (files w))
       (stdin w) (stdout w ++ [MsgCourseAssigned subject name])).
Proof.
  intros Hm Hc Hd1 Hxs Hsub Hname.
  assert (Hname1 : dict_get "Name" d1 = Some name).
  { subst d1. destruct (dict_get "Courses" d); auto.
    rewrite dict_get_set_other by discriminate. exact Hname. }
  unfold assign_course_with, bind.
  rewrite (first_match_stored _ _ _ _ _ _ _ Hm).
  rewrite (read_records_file_some "courses.json" w)
    by (eapply first_match_nonempty; eauto).
  rewrite (for_first_match _ _ _ _ _ pre d suf)
    by (destruct Hm as [_ Hm]; now split).
  rewrite (for_first_match _ _ _ _ _ _ _ _ Hc).
  unfold assign_found, bind, lift, getitem. rewrite <- Hd1, Hxs. simpl.
  rewrite Hsub.
  rewrite !dict_get_set_other by discriminate. rewrite Hname1.
  rewrite length_app. reflexivity.
Qed.

(** The run of [unassign_course] at a valid number [n], typed as [line]. *)
Lemma unassign_course_with_run (w : world P) mem_id pre d suf xs line rest n
    removed subject :
  first_match "ID" (JStr mem_id) (stored w "employees.json") pre d suf ->
  dict_get "Courses" d = Some (JArr xs) ->
  rows_get xs = Ret tt ->
  stdin w = line :: rest ->
  py_int line = Some n ->
  nth_error xs (Z.to_nat (n - 1)) = Some removed ->
  1 <= n ->
  getitem removed "Subject" = Ret subject ->
  let xs' := firstn (Z.to_nat (n - 1)) xs ++ skipn (S (Z.to_nat (n - 1))) xs in
  unassign_course mem_id w =
    (Ret tt,
     World
       (write_files "employees.json"
          (dump_lines
             (pre ++
              JObj (dict_set "Salary"
                      (JInt (30000 + Z.of_nat (List.length xs') * 5000))
                      (dict_set "Courses" (JArr xs') d)) :: suf))
          (files w))
       rest (stdout w ++ [MsgCourseUnassigned subject])).
Proof.
  intros Hm Hxs Hrows Hin Hint Hnth Hn Hsub xs'.
  assert (Hlen : (Z.to_nat (n - 1) < List.length xs)%nat).
  { apply nth_error_Some. congruence. }
  unfold unassign_course, bind.
  rewrite (first_match_stored _ _ _ _ _ _ _ Hm).
  rewrite (for_first_match _ _ _ _ _ pre d suf)
    by (destruct Hm as [_ Hm]; now split).
  unfold unassign_found. rewrite Hxs.
  assert (Ht : truthy (JArr xs) = true).
  { destruct xs; [destruct (Z.to_nat (n - 1)); discriminate | reflexivity]. }
  rewrite Ht. unfold bind, lift, try_ValueError, input, int, py_iter.
  rewrite Hrows, Hin, Hint. simpl.
  replace ((0 <=? n - 1) && (n - 1 <? Z.of_nat (List.length xs))) with true
    by (symmetry; apply andb_true_iff; split;
        [apply Z.leb_le | apply Z.ltb_lt]; lia).
  rewrite Hnth. simpl. rewrite Hsub. reflexivity.
Qed.

Lemma read_records_file_eq name (w : world P) :
  exists w1, read_records_file name w = (Ret (stored w name), w1) /\
             files w1 = files w.
Proof.
  pose proof (read_records_file_fst name w) as Hf.
  pose proof (keeps_read name w) as Hk.
  destruct (read_records_file name w) as [o w1]; simpl in *; subst o.
  now exists w1.
Qed.

Lemma other_subject_passed subj r :
  other_subject subj r -> passed "Subject" (JStr subj) r.
Proof.
  intros [d [v [-> [Hv Hne]]]]. exists d, v. repeat split; auto.
  destruct (py_eq v (JStr subj)) eqn:E; auto.
  apply py_eq_str in E. contradiction.
Qed.

(** The run of [unregister_from_course] at a valid number [n], when the
    scan of the course store ends normally with the record [d2]. *)
Lemma unregister_from_course_run (w : world P) mem_id pre d suf xs line rest
    n removed d2 :
  first_match "ID" (JStr mem_id) (stored w "students.json") pre d suf ->
  dict_get "Courses" d = Some (JArr xs) ->
  stdin w = line :: rest ->
  py_int line = Some n ->
  1 <= n ->
  nth_error xs (Z.to_nat (n - 1)) = Some removed ->
  let xs' := firstn (Z.to_nat (n - 1)) xs ++ skipn (S (Z.to_nat (n - 1))) xs in
  let d1 := dict_set "Courses" (JArr xs') d in
  (forall w1 : world P,
     for_first "Subject" removed
       (fun _ course _ =>
          bind (lift (getitem (JObj d1) "Balance")) (fun balance =>
          bind (lift (getitem (JObj course) "Cost")) (fun cost =>
          bind (lift (py_sub balance cost)) (fun balance' =>
          ret (dict_set "Balance" balance' d1)))))
       (ret d1) [] (stored w "courses.json") w1 = (Ret d2, w1)) ->
  fst (unregister_from_course mem_id w) = Ret tt /\
  files (snd (unregister_from_course mem_id w)) =
    write_files "students.json" (dump_lines (pre ++ JObj d2 :: suf)) (files w).
Proof.
  intros Hm Hxs Hin Hint Hn Hnth xs' d1 Hscan.
  assert (Hlen : (Z.to_nat (n - 1) < List.length xs)%nat).
  { apply nth_error_Some. congruence. }
  unfold unregister_from_course, bind.
  rewrite (first_match_stored _ _ _ _ _ _ _ Hm).
  rewrite (for_first_match _ _ _ _ _ pre d suf)
    by (destruct Hm as [_ Hm]; now split).
  unfold unregister_found. rewrite Hxs.
  assert (Ht : truthy (JArr xs) = true).
  { destruct xs; [destruct (Z.to_nat (n - 1)); discriminate | reflexivity]. }
  rewrite Ht. unfold bind, lift, try_ValueError, input, int, py_iter.
  rewrite Hin, Hint. simpl.
  replace ((0 <=? n - 1) && (n - 1 <? Z.of_nat (List.length xs))) with true
    by (symmetry; apply andb_true_iff; split;
        [apply Z.leb_le | apply Z.ltb_lt]; lia).
  rewrite Hnth. simpl.
  destruct (read_records_file_eq "courses.json"
              (World (files w) rest (stdout w))) as [w1 [-> Hw1]].
  rewrite (stored_files w (World (files w) rest (stdout w))) by reflexivity.
  fold xs'. fold d1. unfold bind, lift in Hscan. rewrite Hscan. simpl.
  rewrite Hw1. split; reflexivity.
Qed.

End Runs.

(** * The claims *)

Lemma RecordFile_lawful : Lawful RecordFile.
Proof. intros rs. reflexivity. Qed.

(** ** The salary rule *)



(** A record as [add_employee] writes it obeys the salary rule. *)
Lemma fresh_employee_salary_ok course_dict name mem_id dob address department :
  salary_ok
    (Employee.to_dict course_dict
       (Employee.init name mem_id dob address department)).
Proof.
  unfold salary_ok. do 2 eexists.
  split; [reflexivity|]. split; [simpl; reflexivity | reflexivity].
Qed.

(** ** Refusals *)

(** C2. When the student has five courses or more, or a balance of 10000
    or more (the balance as stored, before any cost is added),
    [register_for_course] returns after reporting the refusal: nothing is
    asked of the user and no file is written. *)
Theorem registration_refused (P : Platform) (w : world P) (mem_id : string)
    (pre : list json) (d : list (string * json)) (suf : list json)
    (cs : json) (n : nat) :
  first_match "ID" (JStr mem_id) (stored w "students.json") pre d suf ->
  dict_get "Courses" d = Some cs ->
  py_len cs = Ret n ->
  ((5 <= n)%nat \/
   exists b, dict_get "Balance" d = Some b /\ py_ge_int b 10000 = Ret true) ->
  exists m,
    (m = MsgTooManyCourses \/ m = MsgBalanceTooHigh) /\
    register_for_course mem_id w =
      (Ret tt, World (files w) (stdin w) (stdout w ++ [m])).
Proof. apply register_refused. Qed.

Lemma registration_refused_witness :
  exists m,
    (m = MsgTooManyCourses \/ m = MsgBalanceTooHigh) /\
    register_for_course "MEM1002"
      (scenario [] [student_S [] (JFloat 12000%float)] ["1001"]) =
      (Ret tt,
       World (P := RecordFile)
         (scenario_files [] [student_S [] (JFloat 12000%float)])
         ["1001"] ([] ++ [m])).
Proof.
  eapply (registration_refused RecordFile
            (scenario [] [student_S [] (JFloat 12000%float)] ["1001"])
            "MEM1002" [] _ [] (JArr []) 0%nat).
  - split; [reflexivity|]. split; [constructor|].
    exists (JStr "MEM1002"). split; reflexivity.
  - reflexivity.
  - reflexivity.
  - right. exists (JFloat 12000%float). split; [reflexivity|].
    vm_compute. reflexivity.
Defined.

(** C7, as stated, fails: a balance of 9999 is below the ceiling. The
    student of the scenario, with no course and a balance of 9999.0, asks
    for CRN 1001 (cost 500.0): the registration goes through and the
    stored balance becomes 10499.0. *)
Lemma balance_9999_registers :
  fst (register_for_course "MEM1002"
         (scenario [] [student_S [] (JFloat 9999%float)] ["1001"])) = Ret tt /\
  stdout (snd (register_for_course "MEM1002"
                 (scenario [] [student_S [] (JFloat 9999%float)] ["1001"])))
    = [MsgCourseRegistered] /\
  stored (snd (register_for_course "MEM1002"
                 (scenario [] [student_S [] (JFloat 9999%float)] ["1001"])))
         "students.json"
    = [student_S [JStr "Math101"] (JFloat 10499%float)].
Proof. vm_compute. repeat split; reflexivity. Qed.

(** C7, amended. For a student whose balance is exactly 10000, any
    registration attempt is refused, whatever CRN and cost it is for: the
    operation returns after the report, nothing is asked and no file is
    written, so the balance stays at 10000. *)
Theorem balance_10000_rejected (P : Platform) (w : world P) (mem_id : string)
    (pre : list json) (d : list (string * json)) (suf : list json)
    (cs b : json) (n : nat) :
  first_match "ID" (JStr mem_id) (stored w "students.json") pre d suf ->
  dict_get "Courses" d = Some cs ->
  py_len cs = Ret n ->
  dict_get "Balance" d = Some b ->
  b = JInt 10000 \/ b = JFloat 10000%float ->
  exists m,
    (m = MsgTooManyCourses \/ m = MsgBalanceTooHigh) /\
    register_for_course mem_id w =
      (Ret tt, World (files w) (stdin w) (stdout w ++ [m])).
Proof.
  intros Hm Hcs Hn Hb Hb'.
  apply (register_refused w mem_id pre d suf cs n Hm Hcs Hn).
  right. exists b. split; [exact Hb|].
  destruct Hb' as [->| ->]; vm_compute; reflexivity.
Qed.

Lemma balance_10000_rejected_witness :
  exists m,
    (m = MsgTooManyCourses \/ m = MsgBalanceTooHigh) /\
    register_for_course "MEM1002"
      (scenario [] [student_S [] (JFloat 10000%float)] ["1001"]) =
      (Ret tt,
       World (P := RecordFile)
         (scenario_files [] [student_S [] (JFloat 10000%float)])
         ["1001"] ([] ++ [m])).
Proof.
  eapply (balance_10000_rejected RecordFile
            (scenario [] [student_S [] (JFloat 10000%float)] ["1001"])
            "MEM1002" [] _ [] (JArr []) (JFloat 10000%float) 0%nat).
  - split; [reflexivity|]. split; [constructor|].
    exists (JStr "MEM1002"). split; reflexivity.
  - reflexivity.
  - reflexivity.
  - reflexivity.
  - right. reflexivity.
Defined.

(** ** Unregistration *)

(** C5. A student unregisters at a valid number [n] (counted from 1) whose
    entry is the subject text [subj]. The entry is removed. When the
    course store holds a course whose [Subject] is that text, the [Cost] of
    the first such course is subtracted from the balance; when every
    course has another [Subject], the balance is left as it is. Either
    way the operation returns normally and the student store is written
    with the changed record in place. *)
Theorem unregister_deducts_first_match (P : Platform) (w : world P)
    (mem_id : string) (pre : list json) (d : list (string * json))
    (suf xs : list json) (line : string) (rest : list string) (n : Z)
    (subj : string) :
  first_match "ID" (JStr mem_id) (stored w "students.json") pre d suf ->
  dict_get "Courses" d = Some (JArr xs) ->
  stdin w = line :: rest ->
  py_int line = Some n ->
  1 <= n <= Z.of_nat (List.length xs) ->
  nth_error xs (Z.to_nat (n - 1)) = Some (JStr subj) ->
  let xs' := firstn (Z.to_nat (n - 1)) xs ++ skipn (S (Z.to_nat (n - 1))) xs in
  let d1 := dict_set "Courses" (JArr xs') d in
  let r := unregister_from_course mem_id w in
  (forall cpre c csuf b cost b',
     stored w "courses.json" = cpre ++ JObj c :: csuf ->
     Forall (other_subject subj) cpre ->
     dict_get "Subject" c = Some (JStr subj) ->
     dict_get "Balance" d = Some b ->
     dict_get "Cost" c = Some cost ->
     py_sub b cost = Ret b' ->
     fst r = Ret tt /\
     files (snd r) =
       write_files "students.json"
         (dump_lines (pre ++ JObj (dict_set "Balance" b' d1) :: suf))
         (files w)) /\
  (Forall (other_subject subj) (stored w "courses.json") ->
   fst r = Ret tt /\
   files (snd r) =
     write_files "students.json" (dump_lines (pre ++ JObj d1 :: suf)) (files w) /\
   dict_get "Balance" d1 = dict_get "Balance" d).
Proof.
  intros Hm Hxs Hin Hint [Hn _] Hnth xs' d1 r. split.
  - intros cpre c csuf b cost b' Hcs Hcpre Hsub Hb Hcost Hsubtr.
    apply (unregister_from_course_run w mem_id pre d suf xs line rest n
             (JStr subj) _ Hm Hxs Hin Hint Hn Hnth).
    intros w1. rewrite Hcs. rewrite for_first_hit.
    + unfold bind, lift, getitem. fold xs'.
      rewrite dict_get_set_other by discriminate.
      rewrite Hb, Hcost, Hsubtr. reflexivity.
    + eapply Forall_impl; [|exact Hcpre]. apply other_subject_passed.
    + exists (JStr subj). split; [exact Hsub|]. now apply py_eq_str.
  - intros Hall.
    assert (H : fst r = Ret tt /\
                files (snd r) =
                  write_files "students.json"
                    (dump_lines (pre ++ JObj d1 :: suf)) (files w)).
    { apply (unregister_from_course_run w mem_id pre d suf xs line rest n
               (JStr subj) _ Hm Hxs Hin Hint Hn Hnth).
      intros w1. rewrite for_first_miss; [reflexivity|].
      eapply Forall_impl; [|exact Hall]. apply other_subject_passed. }
    destruct H as [H1 H2]. repeat split; auto.
    unfold d1. now rewrite dict_get_set_other by discriminate.
Qed.

Lemma unregister_deducts_first_match_witness :
  fst (unregister_from_course "MEM1002"
         (scenario [] [student_S [JStr "Math101"] (JFloat 500%float)] ["1"]))
    = Ret tt /\
  files (snd (unregister_from_course "MEM1002"
                (scenario [] [student_S [JStr "Math101"] (JFloat 500%float)]
                   ["1"])))
    = write_files "students.json" [student_S [] (JFloat 0%float)]
        (scenario_files [] [student_S [JStr "Math101"] (JFloat 500%float)]).
Proof.
  assert (Hm : first_match "ID" (JStr "MEM1002")
                 (stored (scenario [] [student_S [JStr "Math101"]
                                         (JFloat 500%float)] ["1"])
                    "students.json")
                 [] (student_S_dict [JStr "Math101"] (JFloat 500%float)) []).
  { split; [reflexivity|]. split; [constructor|].
    exists (JStr "MEM1002"). split; reflexivity. }
  destruct (unregister_deducts_first_match RecordFile
              (scenario [] [student_S [JStr "Math101"] (JFloat 500%float)] ["1"])
              "MEM1002" [] _ [] [JStr "Math101"] "1" [] 1 "Math101"
              Hm eq_refl eq_refl eq_refl) as [Hhit _].
  - simpl. lia.
  - reflexivity.
  - apply (Hhit [] math101 [] (JFloat 500%float) (JFloat 500%float)
             (JFloat 0%float)).
    + reflexivity.
    + constructor.
    + reflexivity.
    + reflexivity.
    + reflexivity.
    + vm_compute. reflexivity.
Defined.

(** ** The [Employee] class *)

(** C9. [remove_course] with a course that is not in the employee's list
    returns normally and leaves the object, its courses and its salary
    included, as it was. *)
Theorem remove_course_absent (self : Employee.t) (course : Employee.course_ref) :
  Employee.contains (Employee.courses self) course = false ->
  Employee.remove_course self course = Ret self.
Proof.
  intros H. unfold Employee.remove_course. now rewrite H.
Qed.

Lemma remove_course_absent_witness :
  Employee.remove_course
    (Employee.assign_course
       (Employee.init "E" "MEM1001" "1990-01-01T00:00:00" [] "Math") 7%nat)
    8%nat
  = Ret (Employee.assign_course
           (Employee.init "E" "MEM1001" "1990-01-01T00:00:00" [] "Math") 7%nat).
Proof.
  apply (remove_course_absent
           (Employee.assign_course
              (Employee.init "E" "MEM1001" "1990-01-01T00:00:00" [] "Math")
              7%nat) 8%nat).
  reflexivity.
Defined.

(** ** Assignment *)

Lemma assign_course_to_employee_typed {P : Platform} (w : world P) mem_id line
    rest crn :
  stdin w = mem_id :: line :: rest ->
  py_int line = Some crn ->
  assign_course_to_employee w =
    assign_course_with mem_id crn (World (files w) rest (stdout w)).
Proof.
  intros Hin Hint. unfold assign_course_to_employee, bind, input, int.
  rewrite Hin. simpl. rewrite Hint. reflexivity.
Qed.

(** C10. An employee record without a [Courses] field is given an empty
    one before the course is appended: with the employee and the course
    found (the record has a [Name], the course a [Subject], which the
    report prints), [assign_course_to_employee] returns normally and the
    record it writes lists exactly that course, with a salary of 35000;
    no other key of the record changes. *)
Theorem assign_initialises_courses (P : Platform) (w : world P)
    (mem_id line : string) (rest : list string) (crn : Z)
    (pre : list json) (d : list (string * json)) (suf cpre : list json)
    (c : list (string * json)) (csuf : list json) (name subject : json) :
  stdin w = mem_id :: line :: rest ->
  py_int line = Some crn ->
  first_match "ID" (JStr mem_id) (stored w "employees.json") pre d suf ->
  first_match "CRN" (JInt crn) (stored w "courses.json") cpre c csuf ->
  dict_get "Courses" d = None ->
  dict_get "Name" d = Some name ->
  dict_get "Subject" c = Some subject ->
  exists d',
    assign_course_to_employee w =
      (Ret tt,
       World
         (write_files "employees.json"
            (dump_lines (pre ++ JObj d' :: suf)) (files w))
         rest (stdout w ++ [MsgCourseAssigned subject name])) /\
    dict_get "Courses" d' = Some (JArr [JObj c]) /\
    dict_get "Salary" d' = Some (JInt 35000) /\
    same_except ["Courses"; "Salary"] d d'.
Proof.
  intros Hin Hint Hm Hc Hno Hname Hsub.
  rewrite (assign_course_to_employee_typed w mem_id line rest crn Hin Hint).
  eexists. split.
  - apply (assign_course_with_run (World (files w) rest (stdout w)) mem_id crn
             pre d suf cpre c csuf (dict_set "Courses" (JArr []) d) []
             name subject Hm Hc).
    + now rewrite Hno.
    + apply dict_get_set_same.
    + exact Hsub.
    + exact Hname.
  - split; [|split].
    + rewrite dict_get_set_other by discriminate. apply dict_get_set_same.
    + apply dict_get_set_same.
    + repeat (apply same_except_set; [simpl; auto|]). apply same_except_refl.
Qed.

Lemma assign_initialises_courses_witness :
  exists d',
    assign_course_to_employee
      (scenario [JObj bare_employee] [] ["MEM1001"; "1001"]) =
      (Ret tt,
       World (P := RecordFile)
         (write_files "employees.json" ([] ++ JObj d' :: [])
            (scenario_files [JObj bare_employee] []))
         [] ([] ++ [MsgCourseAssigned (JStr "Math101") (JStr "E")])) /\
    dict_get "Courses" d' = Some (JArr [JObj math101]) /\
    dict_get "Salary" d' = Some (JInt 35000) /\
    same_except ["Courses"; "Salary"] bare_employee d'.
Proof.
  apply (assign_initialises_courses RecordFile
           (scenario [JObj bare_employee] [] ["MEM1001"; "1001"])
           "MEM1001" "1001" [] 1001 [] bare_employee [] [] math101 []
           (JStr "E") (JStr "Math101")).
  - reflexivity.
  - reflexivity.
  - split; [reflexivity|]. split; [constructor|].
    exists (JStr "MEM1001"). split; reflexivity.
  - split; [reflexivity|]. split; [constructor|].
    exists (JInt 1001). split; reflexivity.
  - reflexivity.
  - reflexivity.
  - reflexivity.
Defined.

Lemma hit_set key k v target d :
  k <> key -> hit key target d -> hit key target (dict_set k v d).
Proof.
  intros Hne [x [Hx Heq]]. exists x. split; [|exact Heq].
  now rewrite dict_get_set_other.
Qed.

Lemma first_match_written {P : Platform} (HL : Lawful P) key target name
    rs pre d suf d' (f : string -> option content) i o :
  first_match key target rs pre d suf ->
  hit key target d' ->
  first_match key target
    (stored (World (write_files name (dump_lines (pre ++ JObj d' :: suf)) f) i o)
       name)
    pre d' suf.
Proof.
  intros [_ [Hpre _]] Hhit. unfold stored, write_files. simpl.
  rewrite String.eqb_refl, HL. now split.
Qed.

(** C6. Nothing checks whether the employee already has the course. An
    employee without courses is assigned the same course twice (same
    member ID and same CRN typed twice): the stored record then lists the
    course twice, with a salary of 40000. Unassigning number 1 leaves one
    entry and a salary of 35000. Reading back what was written is assumed
    to give the records written. *)
Theorem assign_twice_then_unassign (P : Platform) (HL : Lawful P)
    (w : world P) (mem_id line one : string) (rest : list string) (crn : Z)
    (pre : list json) (d : list (string * json)) (suf cpre : list json)
    (c : list (string * json)) (csuf : list json) (name subject : json) :
  first_match "ID" (JStr mem_id) (stored w "employees.json") pre d suf ->
  first_match "CRN" (JInt crn) (stored w "courses.json") cpre c csuf ->
  dict_get "Courses" d = Some (JArr []) ->
  dict_get "Name" d = Some name ->
  dict_get "Subject" c = Some subject ->
  py_int line = Some crn ->
  py_int one = Some 1 ->
  stdin w = mem_id :: line :: mem_id :: line :: one :: rest ->
  (exists d2,
     stored (snd (exec_all [AssignCourseToEmployee; AssignCourseToEmployee] w))
            "employees.json" = pre ++ JObj d2 :: suf /\
     dict_get "Courses" d2 = Some (JArr [JObj c; JObj c]) /\
     dict_get "Salary" d2 = Some (JInt 40000)) /\
  (exists d3,
     stored
       (snd (unassign_course mem_id
               (snd (exec_all [AssignCourseToEmployee; AssignCourseToEmployee]
                       w))))
       "employees.json" = pre ++ JObj d3 :: suf /\
     dict_get "Courses" d3 = Some (JArr [JObj c]) /\
     dict_get "Salary" d3 = Some (JInt 35000)).
Proof.
  intros Hm Hc Hcs Hname Hsub Hline Hone Hin.
  pose (dA := dict_set "Salary" (JInt 35000)
                (dict_set "Courses" (JArr [JObj c]) d)).
  pose (dB := dict_set "Salary" (JInt 40000)
                (dict_set "Courses" (JArr [JObj c; JObj c]) dA)).
  pose (dC := dict_set "Salary" (JInt 35000)
                (dict_set "Courses" (JArr [JObj c]) dB)).
  pose (out1 := stdout w ++ [MsgCourseAssigned subject name]).
  pose (w1 := World (write_files "employees.json"
                       (dump_lines (pre ++ JObj dA :: suf)) (files w))
                (mem_id :: line :: one :: rest) out1).
  pose (w2 := World (write_files "employees.json"
                       (dump_lines (pre ++ JObj dB :: suf)) (files w1))
                (one :: rest) (out1 ++ [MsgCourseAssigned subject name])).
  assert (HidA : hit "ID" (JStr mem_id) dA).
  { destruct Hm as [_ [_ Hh]]. unfold dA.
    do 2 (apply hit_set; [discriminate|]). exact Hh. }
  assert (HidB : hit "ID" (JStr mem_id) dB).
  { unfold dB. do 2 (apply hit_set; [discriminate|]). exact HidA. }
  assert (H1 : assign_course_to_employee w = (Ret tt, w1)).
  { rewrite (assign_course_to_employee_typed w mem_id line _ crn Hin Hline).
    apply (assign_course_with_run
             (World (files w) (mem_id :: line :: one :: rest) (stdout w))
             mem_id crn pre d suf cpre c csuf d [] name subject Hm Hc);
      auto. now rewrite Hcs. }
  assert (H2 : assign_course_to_employee w1 = (Ret tt, w2)).
  { rewrite (assign_course_to_employee_typed w1 mem_id line (one :: rest) crn
               eq_refl Hline).
    apply (assign_course_with_run (World (files w1) (one :: rest) (stdout w1))
             mem_id crn pre dA suf cpre c csuf dA [JObj c] name subject).
    - apply (first_match_written HL _ _ _ _ _ _ _ _ _ _ _ Hm HidA).
    - exact Hc.
    - unfold dA. rewrite dict_get_set_other by discriminate.
      now rewrite dict_get_set_same.
    - unfold dA. rewrite dict_get_set_other by discriminate.
      apply dict_get_set_same.
    - exact Hsub.
    - unfold dA. now rewrite !dict_get_set_other by discriminate. }
  assert (H12 : exec_all [AssignCourseToEmployee; AssignCourseToEmployee] w
                = (Ret tt, w2)).
  { simpl. unfold bind. rewrite H1, H2. reflexivity. }
  assert (H3 : unassign_course mem_id w2 =
               (Ret tt,
                World (write_files "employees.json"
                         (dump_lines (pre ++ JObj dC :: suf)) (files w2))
                  rest (stdout w2 ++ [MsgCourseUnassigned subject]))).
  { apply (unassign_course_with_run w2 mem_id pre dB suf [JObj c; JObj c] one rest 1
             (JObj c) subject).
    - apply (first_match_written HL _ _ _ _ _ _ _ _ _ _ _ Hm HidB).
    - unfold dB. rewrite dict_get_set_other by discriminate.
      apply dict_get_set_same.
    - reflexivity.
    - reflexivity.
    - exact Hone.
    - reflexivity.
    - lia.
    - unfold getitem. now rewrite Hsub. }
  rewrite H12. cbn [snd]. rewrite H3. cbn [snd]. split.
  - exists dB. split; [|split].
    + unfold stored, write_files. simpl. now rewrite HL.
    + unfold dB. rewrite dict_get_set_other by discriminate.
      apply dict_get_set_same.
    + apply dict_get_set_same.
  - exists dC. split; [|split].
    + unfold stored, write_files. simpl. now rewrite HL.
    + unfold dC. rewrite dict_get_set_other by discriminate.
      apply dict_get_set_same.
    + apply dict_get_set_same.
Qed.

Lemma assign_twice_then_unassign_witness :
  (exists d2,
     stored (snd (exec_all [AssignCourseToEmployee; AssignCourseToEmployee]
                    (scenario [employee_E] []
                       ["MEM1001"; "1001"; "MEM1001"; "1001"; "1"])))
            "employees.json" = [] ++ JObj d2 :: [] /\
     dict_get "Courses" d2 = Some (JArr [JObj math101; JObj math101]) /\
     dict_get "Salary" d2 = Some (JInt 40000)) /\
  (exists d3,
     stored
       (snd (unassign_course "MEM1001"
               (snd (exec_all [AssignCourseToEmployee; AssignCourseToEmployee]
                       (scenario [employee_E] []
                          ["MEM1001"; "1001"; "MEM1001"; "1001"; "1"])))))
       "employees.json" = [] ++ JObj d3 :: [] /\
     dict_get "Courses" d3 = Some (JArr [JObj math101]) /\
     dict_get "Salary" d3 = Some (JInt 35000)).
Proof.
  eapply (assign_twice_then_unassign RecordFile RecordFile_lawful
            (scenario [employee_E] []
               ["MEM1001"; "1001"; "MEM1001"; "1001"; "1"])
            "MEM1001" "1001" "1" [] 1001 [] _ [] [] math101 []
            (JStr "E") (JStr "Math101")).
  - split; [reflexivity|]. split; [constructor|].
    exists (JStr "MEM1001"). split; reflexivity.
  - split; [reflexivity|]. split; [constructor|].
    exists (JInt 1001). split; reflexivity.
  - reflexivity.
  - reflexivity.
  - reflexivity.
  - reflexivity.
  - reflexivity.
  - reflexivity.
Defined.

(** ** The frame of the relationship operations *)

(** C8. Whatever the state and however it ends, each of the four
    relationship operations either leaves every file as it was, or writes
    only its own store, with the records it read in their order and the
    first record whose [ID] equals the member identifier replaced by a
    record that differs from it at most at [Courses] and [Salary]
    (employees) or [Courses] and [Balance] (students). For
    [assign_course_to_employee] the identifier is the first line typed. *)
Theorem relationship_operations_frame (P : Platform) (w : world P)
    (mem_id : string) :
  match stdin w with
  | [] => files (snd (assign_course_to_employee w)) = files w
  | typed :: _ =>
      touches_first "employees.json" typed ["Courses"; "Salary"]
        (fun _ => True) w (snd (assign_course_to_employee w))
  end /\
  touches_first "employees.json" mem_id ["Courses"; "Salary"]
    (fun _ => True) w (snd (unassign_course mem_id w)) /\
  touches_first "students.json" mem_id ["Courses"; "Balance"]
    (fun _ => True) w (snd (register_for_course mem_id w)) /\
  touches_first "students.json" mem_id ["Courses"; "Balance"]
    (fun _ => True) w (snd (unregister_from_course mem_id w)).
Proof.
  split; [|split; [|split]].
  - pose proof (assign_course_to_employee_effect w) as H.
    destruct (stdin w); [exact H|].
    eapply touches_first_weaken; [|exact H]. auto.
  - eapply touches_first_weaken; [|apply unassign_course_with_effect]. auto.
  - apply register_for_course_effect.
  - apply unregister_from_course_effect.
Qed.

(** ** The text file *)

Lemma append_assoc (a b c : string) : ((a ++ b) ++ c = a ++ (b ++ c))%string.
Proof. induction a as [|x a IH]; simpl; [reflexivity | now rewrite IH]. Qed.

(** A text without line ends, followed by a line end, is read as one
    line. *)
Lemma file_lines_one_line (a : string) : forall line rest,
  one_line a = true ->
  file_lines line (a ++ newline ++ rest)%string =
    (line ++ a ++ newline)%string :: file_lines "" rest.
Proof.
  induction a as [|c a IH]; intros line rest H; simpl in *.
  - reflexivity.
  - apply andb_true_iff in H as [H Ha]. apply andb_true_iff in H as [Hlf Hcr].
    apply negb_true_iff in Hlf, Hcr. rewrite Hlf, Hcr.
    rewrite IH by exact Ha. rewrite append_assoc. reflexivity.
Qed.

Lemma text_load_dump json_dumps json_loads records :
  Forall (carried json_dumps json_loads) records ->
  text_load json_loads (text_dump json_dumps records) = Some records.
Proof.
  unfold text_load.
  induction 1 as [|r rs [Hline Hload] _ IH]; simpl; [reflexivity|].
  rewrite append_assoc, file_lines_one_line by exact Hline.
  simpl. now rewrite Hload, IH.
Qed.

(** With a [json] that carries every record, the text file gives back
    what was written. *)
Lemma TextFile_lawful json_dumps json_loads builtin_int :
  (forall r, carried json_dumps json_loads r) ->
  Lawful (TextFile json_dumps json_loads builtin_int).
Proof.
  intros H rs. apply text_load_dump. apply Forall_forall. auto.
Qed.

Example file_lines_two_records :
  file_lines "" ("{}" ++ newline ++ "{}" ++ String CR newline)%string =
    [("{}" ++ newline)%string; ("{}" ++ newline)%string].
Proof. reflexivity. Qed.





(** * Further properties of the code *)

(** ** Identifiers *)

Lemma str_injective (m n : Z) : str m = str n -> m = n.
Proof.
  unfold str. intros H.
  assert (Hn : forall z,
             DecimalString.NilZero.int_of_string
               (DecimalString.NilZero.string_of_int (Z.to_int z))
             = Some (Z.to_int z)).
  { intros z. apply DecimalString.NilZero.isi; destruct z; simpl;
      try discriminate; intros [= E];
      now apply DecimalPos.Unsigned.to_uint_nonnil in E. }
  pose proof (Hn m) as Hm. rewrite H, Hn in Hm. injection Hm as Hm.
  rewrite <- (DecimalZ.of_to m), <- (DecimalZ.of_to n). now rewrite Hm.
Qed.

Section Identifiers.
Context {P : Platform}.

Lemma generate_crns_spec (n : nat) : forall s : session P,
  generate_crns n s =
    (Ret (map (fun i => crn_counter s + 1 + Z.of_nat i) (seq 0 n)),
     Session (crn_counter s + Z.of_nat n) (mem_id_counter s) (notices s)
       (state s)).
Proof.
  induction n as [|n IH]; intros s.
  - simpl. unfold sret. destruct s; simpl. do 2 f_equal. lia.
  - cbn [generate_crns]. unfold sbind, generate_crn. rewrite IH.
    unfold sret. cbn [crn_counter mem_id_counter notices state].
    f_equal; [|f_equal; lia].
    cbn [seq map]. f_equal. f_equal; [lia|].
    rewrite <- seq_shift, map_map. apply map_ext. intros i. lia.
Qed.

Lemma generate_mem_ids_spec (n : nat) : forall s : session P,
  generate_mem_ids n s =
    (Ret (map (fun i => ("MEM" ++ str (mem_id_counter s + 1 + Z.of_nat i))%string)
            (seq 0 n)),
     Session (crn_counter s) (mem_id_counter s + Z.of_nat n) (notices s)
       (state s)).
Proof.
  induction n as [|n IH]; intros s.
  - simpl. unfold sret. destruct s; simpl. do 2 f_equal. lia.
  - cbn [generate_mem_ids]. unfold sbind, generate_mem_id. rewrite IH.
    unfold sret. cbn [crn_counter mem_id_counter notices state].
    f_equal; [|f_equal; lia].
    cbn [seq map]. f_equal. f_equal; [do 2 f_equal; lia|].
    rewrite <- seq_shift, map_map. apply map_ext. intros i.
    do 2 f_equal. lia.
Qed.

End Identifiers.

Lemma NoDup_map_injective {A B} (f : A -> B) (l : list A) :
  (forall x y, f x = f y -> x = y) -> NoDup l -> NoDup (map f l).
Proof.
  intros Hf. induction 1 as [|x l Hx _ IH]; simpl; constructor; auto.
  intros Hin. apply in_map_iff in Hin as [y [Hy Hin]].
  apply Hf in Hy. now subst.
Qed.

(** X1. Within one run of the program, any number of calls of
    [generate_crn] in a row return consecutive integers, starting one
    above the counter, and any number of calls of [generate_mem_id]
    return pairwise different identifiers. *)
Theorem identifiers_distinct (P : Platform) (n : nat) (s : session P) :
  (exists crns,
     fst (generate_crns n s) = Ret crns /\ NoDup crns /\
     forall c, In c crns <-> crn_counter s < c <= crn_counter s + Z.of_nat n) /\
  (exists ids, fst (generate_mem_ids n s) = Ret ids /\ NoDup ids /\
               List.length ids = n).
Proof.
  split.
  - rewrite generate_crns_spec. eexists. split; [reflexivity|].
    split.
    + apply NoDup_map_injective; [intros x y H; cbv beta in H; lia | apply seq_NoDup].
    + intros c. rewrite in_map_iff. split.
      * intros [i [<- Hi]]. apply in_seq in Hi. lia.
      * intros Hc. exists (Z.to_nat (c - crn_counter s - 1)). split; [lia|].
        apply in_seq. lia.
  - rewrite generate_mem_ids_spec. eexists. split; [reflexivity|].
    split.
    + apply NoDup_map_injective; [|apply seq_NoDup].
      intros x y Hxy. injection Hxy as Hxy. apply str_injective in Hxy. lia.
    + now rewrite length_map, length_seq.
Qed.

(** ** The [Employee] class *)

Lemma list_remove_present l c :
  Employee.contains l c = true ->
  exists l', Employee.list_remove l c = Ret l'.
Proof.
  unfold Employee.contains. induction l as [|x l IH]; simpl; [discriminate|].
  destruct (Nat.eqb c x); simpl; [eauto|].
  intros H. destruct (IH H) as [l' ->]. eauto.
Qed.

Lemma list_remove_first l1 c l2 :
  ~ In c l1 -> Employee.list_remove (l1 ++ c :: l2) c = Ret (l1 ++ l2).
Proof.
  induction l1 as [|x l1 IH]; simpl; intros Hn.
  - now rewrite Nat.eqb_refl.
  - destruct (Nat.eqb_spec c x) as [->|_]; [tauto|]. rewrite IH; tauto.
Qed.

Lemma with_courses_in_step self cs :
  salary_in_step (Employee.with_courses self cs).
Proof.
  unfold salary_in_step, Employee.with_courses, BASE_SALARY, PER_COURSE_BONUS.
  cbn [Employee.salary Employee.courses]. lia.
Qed.

Lemma calls_in_step ms : forall self,
  salary_in_step self ->
  exists self', calls self ms = Ret self' /\ salary_in_step self'.
Proof.
  induction ms as [|[c|c] ms IH]; intros self Hs; simpl.
  - eauto.
  - apply IH. apply with_courses_in_step.
  - unfold Employee.remove_course.
    destruct (Employee.contains (Employee.courses self) c) eqn:E; [|auto].
    destruct (list_remove_present _ _ E) as [l' ->].
    apply IH. apply with_courses_in_step.
Qed.

(** X2. An [Employee] object, from its creation on and through any
    sequence of [assign_course] and [remove_course] calls, never raises
    (the [ValueError] of [list.remove] cannot escape) and always has a
    salary of 30000 + 5000 * the number of its courses. *)
Theorem employee_object_salary (name mem_id dob : string)
    (address : list (string * string)) (department : string)
    (ms : list method) :
  exists self,
    calls (Employee.init name mem_id dob address department) ms = Ret self /\
    Employee.salary self =
      30000 + 5000 * Z.of_nat (List.length (Employee.courses self)).
Proof. apply calls_in_step. reflexivity. Qed.

(** X3. [remove_course] with a course the employee has removes its first
    occurrence only, and sets the salary from the courses left. *)
Theorem remove_course_first_occurrence (self : Employee.t)
    (l1 l2 : list Employee.course_ref) (c : Employee.course_ref) :
  Employee.courses self = l1 ++ c :: l2 ->
  ~ In c l1 ->
  Employee.remove_course self c = Ret (Employee.with_courses self (l1 ++ l2)).
Proof.
  intros Hc Hn. unfold Employee.remove_course. rewrite Hc.
  replace (Employee.contains (l1 ++ c :: l2) c) with true.
  - now rewrite list_remove_first.
  - symmetry. unfold Employee.contains. apply existsb_exists. exists c.
    split; [apply in_elt | apply Nat.eqb_refl].
Qed.

Lemma remove_course_first_occurrence_witness :
  Employee.remove_course
    (Employee.with_courses (Employee.init "E" "MEM1001" "1990-01-01" [] "Math")
       [4; 7; 5; 7]%nat) 7%nat
  = Ret (Employee.with_courses
           (Employee.with_courses
              (Employee.init "E" "MEM1001" "1990-01-01" [] "Math")
              [4; 7; 5; 7]%nat)
           ([4] ++ [5; 7])%nat).
Proof.
  apply (remove_course_first_occurrence
           (Employee.with_courses
              (Employee.init "E" "MEM1001" "1990-01-01" [] "Math")
              [4; 7; 5; 7]%nat) [4%nat] [5; 7]%nat 7%nat).
  - reflexivity.
  - simpl. intros [H|[]]. discriminate.
Defined.

(** ** One bad line in a store *)

Lemma file_lines_dump json_dumps json_loads records : forall rest,
  Forall (carried json_dumps json_loads) records ->
  file_lines "" (text_dump json_dumps records ++ rest)%string =
    map (fun r => (json_dumps r ++ newline)%string) records ++
    file_lines "" rest.
Proof.
  induction records as [|r rs IH]; intros rest H; simpl; [reflexivity|].
  inversion H as [|? ? [Hline _] Hrs]; subst.
  rewrite !append_assoc. rewrite file_lines_one_line by exact Hline.
  simpl. now rewrite IH.
Qed.

Lemma loads_all_bad json_loads (good : list string) bad more :
  json_loads bad = None -> loads_all json_loads (good ++ bad :: more) = None.
Proof.
  intros H. induction good as [|l good IH]; simpl.
  - now rewrite H.
  - destruct (json_loads l); [|reflexivity]. now rewrite IH.
Qed.

(** X4. One line that [json.loads] rejects hides the whole store: with
    any records written before it and any text after it,
    [read_records_file] reports the error and returns the empty list. *)
Theorem one_bad_line_hides_store (json_dumps : json -> string)
    (json_loads : string -> option json) (builtin_int : string -> option Z)
    (name : string) (w : world (TextFile json_dumps json_loads builtin_int))
    (records : list json) (bad rest : string) :
  Forall (carried json_dumps json_loads) records ->
  one_line bad = true ->
  json_loads (bad ++ newline)%string = None ->
  files w name =
    Some (text_dump json_dumps records ++ bad ++ newline ++ rest)%string ->
  read_records_file name w =
    (Ret [], World (files w) (stdin w) (stdout w ++ [MsgErrorReadingFile])).
Proof.
  intros Hrs Hline Hbad Hf.
  assert (Ht : text_load json_loads
                 (text_dump json_dumps records ++ bad ++ newline ++ rest)%string
               = None).
  { unfold text_load. rewrite (file_lines_dump _ json_loads) by exact Hrs.
    rewrite file_lines_one_line by exact Hline.
    now apply loads_all_bad. }
  unfold read_records_file. rewrite Hf.
  change (load_lines ?c) with (text_load json_loads c). now rewrite Ht.
Qed.

Lemma one_bad_line_hides_store_witness :
  read_records_file (P := TextFile sample_dumps sample_loads ascii_int)
    "courses.json"
    (World (P := TextFile sample_dumps sample_loads ascii_int)
       (write_files "courses.json"
          (text_dump sample_dumps [JObj []; JObj []] ++ "{}{" ++ newline ++
           text_dump sample_dumps [JObj []])%string
          (fun _ => None)) [] []) =
  (Ret [],
   World (P := TextFile sample_dumps sample_loads ascii_int)
     (write_files "courses.json"
        (text_dump sample_dumps [JObj []; JObj []] ++ "{}{" ++ newline ++
         text_dump sample_dumps [JObj []])%string
        (fun _ => None)) [] ([] ++ [MsgErrorReadingFile])).
Proof.
  apply (one_bad_line_hides_store sample_dumps sample_loads ascii_int
           "courses.json"
           (World (P := TextFile sample_dumps sample_loads ascii_int)
              (write_files "courses.json"
                 (text_dump sample_dumps [JObj []; JObj []] ++ "{}{" ++
                  newline ++ text_dump sample_dumps [JObj []])%string
                 (fun _ => None)) [] [])
           [JObj []; JObj []] "{}{"%string
           (text_dump sample_dumps [JObj []])).
  - repeat constructor.
  - reflexivity.
  - reflexivity.
  - reflexivity.
Defined.

(** ** Additions *)

Section Additions.
Context {P : Platform}.
Variable strptime : string -> option string.
Variable py_float : string -> option float.

Lemma read_records_file_keeps_input name (w : world P) :
  exists w1, read_records_file name w = (Ret (stored w name), w1) /\
             files w1 = files w /\ stdin w1 = stdin w.
Proof.
  unfold read_records_file, stored.
  destruct (files w name) as [c|]; [|now exists w].
  destruct (load_lines c); [now exists w|].
  eexists. split; [reflexivity|]. split; reflexivity.
Qed.

(** What the read, append and write of an addition leave. *)
Lemma append_record_spec name r (s : session P) :
  exists w1,
    append_record name r s =
      (Ret tt, Session (crn_counter s) (mem_id_counter s) (notices s) w1) /\
    files w1 =
      write_files name (dump_lines (stored (state s) name ++ [r]))
        (files (state s)) /\
    stdin w1 = stdin (state s).
Proof.
  destruct (read_records_file_keeps_input name (state s)) as [w0 [E [Hf Hi]]].
  unfold append_record, sbind, on_world. rewrite E. simpl.
  eexists. split; [reflexivity|]. simpl. rewrite Hf, Hi. now split.
Qed.

Lemma stored_after_append (HL : Lawful P) name r (w w1 : world P) :
  files w1 = write_files name (dump_lines (stored w name ++ [r])) (files w) ->
  stored w1 name = stored w name ++ [r] /\
  (forall n, n <> name -> files w1 n = files w n).
Proof.
  intros H. split.
  - unfold stored at 1. rewrite H. unfold write_files.
    now rewrite String.eqb_refl, HL.
  - intros n Hn. rewrite H. unfold write_files.
    now destruct (String.eqb_spec n name).
Qed.

Ltac typed Hin :=
  unfold input_address;
  unfold sbind, on_world, input, generate_crn, generate_mem_id, convert, sret;
  rewrite Hin;
  cbn [fst snd state stdin files stdout crn_counter mem_id_counter notices].

Ltac appended w1 E Hf Hi :=
  match goal with
  | |- context [append_record ?n ?r ?s0] =>
      destruct (append_record_spec n r s0) as [w1 [E [Hf Hi]]]
  end;
  rewrite E.

Lemma add_course_run (s : session P) subject l1 l2 st et l3 rest d1 d2 c :
  stdin (state s) = subject :: l1 :: l2 :: st :: et :: l3 :: rest ->
  strptime l1 = Some d1 -> strptime l2 = Some d2 -> py_float l3 = Some c ->
  exists w1,
    add_course strptime py_float s =
      (Ret tt,
       Session (crn_counter s + 1) (mem_id_counter s)
         (notices s ++ [NoteCourseAdded]) w1) /\
    files w1 =
      write_files "courses.json"
        (dump_lines
           (stored (state s) "courses.json" ++
            [Course.to_dict
               (Course.Build subject (crn_counter s + 1) d1 d2 st et c)]))
        (files (state s)) /\
    stdin w1 = rest.
Proof.
  intros Hin H1 H2 H3. unfold add_course. typed Hin.
  rewrite H1, H2, H3.
  appended w1 E Hf Hi.
  exists w1. split; [reflexivity|]. split; [exact Hf | exact Hi].
Qed.

Lemma add_employee_run (s : session P) name line city country zip department
    rest dob :
  stdin (state s) = name :: line :: city :: country :: zip :: department :: rest ->
  strptime line = Some dob ->
  exists w1,
    add_employee strptime s =
      (Ret tt,
       Session (crn_counter s) (mem_id_counter s + 1)
         (notices s ++ [NoteEmployeeAdded]) w1) /\
    files w1 =
      write_files "employees.json"
        (dump_lines
           (stored (state s) "employees.json" ++
            [Employee.to_dict (fun _ => JNull)
               (Employee.init name ("MEM" ++ str (mem_id_counter s + 1))
                  dob [("city", city); ("country", country); ("zip_code", zip)]
                  department)]))
        (files (state s)) /\
    stdin w1 = rest.
Proof.
  intros Hin H1. unfold add_employee. typed Hin. rewrite H1.
  cbn [fst snd state stdin files stdout crn_counter mem_id_counter notices].
  appended w1 E Hf Hi.
  exists w1. split; [reflexivity|]. split; [exact Hf | exact Hi].
Qed.

Lemma add_student_run (s : session P) name line city country zip rest dob :
  stdin (state s) = name :: line :: city :: country :: zip :: rest ->
  strptime line = Some dob ->
  exists w1,
    add_student strptime s =
      (Ret tt,
       Session (crn_counter s) (mem_id_counter s + 1)
         (notices s ++ [NoteStudentAdded]) w1) /\
    files w1 =
      write_files "students.json"
        (dump_lines
           (stored (state s) "students.json" ++
            [Student.to_dict
               (Student.Build name ("MEM" ++ str (mem_id_counter s + 1)) dob
                  [("city", city); ("country", country); ("zip_code", zip)]
                  [] 0%float)]))
        (files (state s)) /\
    stdin w1 = rest.
Proof.
  intros Hin H1. unfold add_student. typed Hin. rewrite H1.
  cbn [fst snd state stdin files stdout crn_counter mem_id_counter notices].
  appended w1 E Hf Hi.
  exists w1. split; [reflexivity|]. split; [exact Hf | exact Hi].
Qed.

End Additions.

(** X5. [add_course], given its seven lines with two dates and a cost
    that convert, returns normally having appended one record to the
    course store: the records already there stay, in their order, and the
    new one is last. Its CRN is the counter plus one, whatever CRNs the
    store already holds (after a restart the counter is 1000 again). No
    other file changes, and only the CRN counter advances. Reading back
    what was written is assumed to give the records written. *)
Theorem add_course_appends (P : Platform) (HL : Lawful P)
    (strptime : string -> option string) (py_float : string -> option float)
    (s : session P) (subject l1 l2 st et l3 : string) (rest : list string)
    (d1 d2 : string) (c : float) :
  stdin (state s) = subject :: l1 :: l2 :: st :: et :: l3 :: rest ->
  strptime l1 = Some d1 -> strptime l2 = Some d2 -> py_float l3 = Some c ->
  exists s',
    add_course strptime py_float s = (Ret tt, s') /\
    stored (state s') "courses.json" =
      stored (state s) "courses.json" ++
      [Course.to_dict (Course.Build subject (crn_counter s + 1) d1 d2 st et c)] /\
    (forall n, n <> "courses.json" -> files (state s') n = files (state s) n) /\
    crn_counter s' = crn_counter s + 1 /\
    mem_id_counter s' = mem_id_counter s /\
    stdin (state s') = rest /\
    notices s' = notices s ++ [NoteCourseAdded].
Proof.
  intros Hin H1 H2 H3.
  destruct (add_course_run strptime py_float s _ _ _ _ _ _ _ _ _ _ Hin H1 H2 H3)
    as [w1 [E [Hf Hi]]].
  eexists. split; [exact E|]. cbn [state crn_counter mem_id_counter notices].
  destruct (stored_after_append HL _ _ _ _ Hf) as [Hs Ho].
  repeat split; auto.
Qed.

Lemma add_course_appends_witness :
  exists s',
    add_course sample_strptime sample_float
      (start (scenario [] []
                ["Phys"; "2024-01-01"; "2024-05-01"; "09:00"; "10:00"; "500"]))
    = (Ret tt, s') /\
    stored (state s') "courses.json" =
      stored (state (start (scenario [] []
                ["Phys"; "2024-01-01"; "2024-05-01"; "09:00"; "10:00"; "500"])))
        "courses.json" ++
      [Course.to_dict
         (Course.Build "Phys" (1000 + 1) "2024-01-01T00:00:00"
            "2024-05-01T00:00:00" "09:00" "10:00" 500%float)] /\
    (forall n, n <> "courses.json" ->
               files (state s') n = scenario_files [] [] n) /\
    crn_counter s' = 1000 + 1 /\
    mem_id_counter s' = 1000 /\
    stdin (state s') = [] /\
    notices s' = [] ++ [NoteCourseAdded].
Proof.
  apply (add_course_appends RecordFile RecordFile_lawful sample_strptime
           sample_float
           (start (scenario [] []
              ["Phys"; "2024-01-01"; "2024-05-01"; "09:00"; "10:00"; "500"]))
           "Phys" "2024-01-01" "2024-05-01" "09:00" "10:00" "500" []
           "2024-01-01T00:00:00" "2024-05-01T00:00:00" 500%float).
  - reflexivity.
  - reflexivity.
  - reflexivity.
  - reflexivity.
Defined.

(** X6. [add_employee], given its six lines with a date of birth that
    converts, appends one record to the employee store and changes no
    other file; the record has no courses and a salary of 30000, so a
    store whose records all obey the salary rule still does. Only the
    member counter advances, and the identifier is [MEM] followed by the
    new counter. *)
Theorem add_employee_appends (P : Platform) (HL : Lawful P)
    (strptime : string -> option string) (s : session P)
    (name line city country zip department : string) (rest : list string)
    (dob : string) :
  stdin (state s) = name :: line :: city :: country :: zip :: department :: rest ->
  strptime line = Some dob ->
  exists s',
    add_employee strptime s = (Ret tt, s') /\
    stored (state s') "employees.json" =
      stored (state s) "employees.json" ++
      [Employee.to_dict (fun _ => JNull)
         (Employee.init name ("MEM" ++ str (mem_id_counter s + 1)) dob
            [("city", city); ("country", country); ("zip_code", zip)]
            department)] /\
    (forall n, n <> "employees.json" -> files (state s') n = files (state s) n) /\
    (Forall salary_ok (stored (state s) "employees.json") ->
     Forall salary_ok (stored (state s') "employees.json")) /\
    crn_counter s' = crn_counter s /\
    mem_id_counter s' = mem_id_counter s + 1 /\
    stdin (state s') = rest.
Proof.
  intros Hin H1.
  destruct (add_employee_run strptime s _ _ _ _ _ _ _ _ Hin H1)
    as [w1 [E [Hf Hi]]].
  eexists. split; [exact E|]. cbn [state crn_counter mem_id_counter notices].
  destruct (stored_after_append HL _ _ _ _ Hf) as [Hs Ho].
  repeat split; auto.
  intros Hall. rewrite Hs. apply Forall_app. split; [exact Hall|].
  constructor; [apply fresh_employee_salary_ok | constructor].
Qed.

Lemma add_employee_appends_witness :
  exists s',
    add_employee sample_strptime
      (start (scenario [employee_E] []
                ["Ann"; "1990-01-01"; "Riyadh"; "SA"; "11564"; "Math"]))
    = (Ret tt, s') /\
    stored (state s') "employees.json" =
      stored (state (start (scenario [employee_E] []
                ["Ann"; "1990-01-01"; "Riyadh"; "SA"; "11564"; "Math"])))
        "employees.json" ++
      [Employee.to_dict (fun _ => JNull)
         (Employee.init "Ann" ("MEM" ++ str (1000 + 1)) "1990-01-01T00:00:00"
            [("city", "Riyadh"); ("country", "SA"); ("zip_code", "11564")]
            "Math")] /\
    (forall n, n <> "employees.json" ->
               files (state s') n = scenario_files [employee_E] [] n) /\
    (Forall salary_ok
       (stored (state (start (scenario [employee_E] []
                ["Ann"; "1990-01-01"; "Riyadh"; "SA"; "11564"; "Math"])))
          "employees.json") ->
     Forall salary_ok (stored (state s') "employees.json")) /\
    crn_counter s' = 1000 /\
    mem_id_counter s' = 1000 + 1 /\
    stdin (state s') = [].
Proof.
  apply (add_employee_appends RecordFile RecordFile_lawful sample_strptime
           (start (scenario [employee_E] []
              ["Ann"; "1990-01-01"; "Riyadh"; "SA"; "11564"; "Math"]))
           "Ann" "1990-01-01" "Riyadh" "SA" "11564" "Math" []
           "1990-01-01T00:00:00").
  - reflexivity.
  - reflexivity.
Defined.

(** X7. [add_student], given its five lines with a date of birth that
    converts, appends one record to the student store and changes no
    other file; the record has no courses and a balance of 0.0. *)
Theorem add_student_appends (P : Platform) (HL : Lawful P)
    (strptime : string -> option string) (s : session P)
    (name line city country zip : string) (rest : list string) (dob : string) :
  stdin (state s) = name :: line :: city :: country :: zip :: rest ->
  strptime line = Some dob ->
  exists s' d,
    add_student strptime s = (Ret tt, s') /\
    stored (state s') "students.json" =
      stored (state s) "students.json" ++ [JObj d] /\
    dict_get "ID" d = Some (JStr ("MEM" ++ str (mem_id_counter s + 1))) /\
    dict_get "Name" d = Some (JStr name) /\
    dict_get "Courses" d = Some (JArr []) /\
    dict_get "Balance" d = Some (JFloat 0%float) /\
    (forall n, n <> "students.json" -> files (state s') n = files (state s) n) /\
    mem_id_counter s' = mem_id_counter s + 1 /\
    stdin (state s') = rest.
Proof.
  intros Hin H1.
  destruct (add_student_run strptime s _ _ _ _ _ _ _ Hin H1)
    as [w1 [E [Hf Hi]]].
  do 2 eexists. split; [exact E|]. cbn [state crn_counter mem_id_counter notices].
  destruct (stored_after_append HL _ _ _ _ Hf) as [Hs Ho].
  split; [exact Hs|]. repeat split; auto.
Qed.

Lemma add_student_appends_witness :
  exists s' d,
    add_student sample_strptime
      (start (scenario [] [] ["Bob"; "1990-01-01"; "Riyadh"; "SA"; "11564"]))
    = (Ret tt, s') /\
    stored (state s') "students.json" =
      stored (state (start (scenario [] []
                ["Bob"; "1990-01-01"; "Riyadh"; "SA"; "11564"])))
        "students.json" ++ [JObj d] /\
    dict_get "ID" d = Some (JStr ("MEM" ++ str (1000 + 1))) /\
    dict_get "Name" d = Some (JStr "Bob") /\
    dict_get "Courses" d = Some (JArr []) /\
    dict_get "Balance" d = Some (JFloat 0%float) /\
    (forall n, n <> "students.json" ->
               files (state s') n = scenario_files [] [] n) /\
    mem_id_counter s' = 1000 + 1 /\
    stdin (state s') = [].
Proof.
  apply (add_student_appends RecordFile RecordFile_lawful sample_strptime
           (start (scenario [] [] ["Bob"; "1990-01-01"; "Riyadh"; "SA"; "11564"]))
           "Bob" "1990-01-01" "Riyadh" "SA" "11564" [] "1990-01-01T00:00:00").
  - reflexivity.
  - reflexivity.
Defined.

(** X8. [add_course] on a course store that does not parse: the store is
    read as empty, so the file is rewritten with the new record alone and
    what it held before is gone. *)
Theorem add_course_over_unreadable_store (P : Platform)
    (strptime : string -> option string) (py_float : string -> option float)
    (s : session P) (held : content)
    (subject l1 l2 st et l3 : string) (rest : list string)
    (d1 d2 : string) (c : float) :
  files (state s) "courses.json" = Some held ->
  load_lines held = None ->
  stdin (state s) = subject :: l1 :: l2 :: st :: et :: l3 :: rest ->
  strptime l1 = Some d1 -> strptime l2 = Some d2 -> py_float l3 = Some c ->
  exists s',
    add_course strptime py_float s = (Ret tt, s') /\
    files (state s') "courses.json" =
      Some (dump_lines
              [Course.to_dict
                 (Course.Build subject (crn_counter s + 1) d1 d2 st et c)]).
Proof.
  intros Hf Hbad Hin H1 H2 H3.
  destruct (add_course_run strptime py_float s _ _ _ _ _ _ _ _ _ _ Hin H1 H2 H3)
    as [w1 [E [Hw Hi]]].
  eexists. split; [exact E|]. cbn [state]. rewrite Hw.
  unfold write_files, stored. rewrite String.eqb_refl, Hf, Hbad. reflexivity.
Qed.

Lemma add_course_over_unreadable_store_witness :
  exists s',
    add_course sample_strptime sample_float
      (start (World (P := FragileFile)
                (write_files "courses.json" None (fun _ => None))
                ["Phys"; "2024-01-01"; "2024-05-01"; "09:00"; "10:00"; "500"]
                []))
    = (Ret tt, s') /\
    files (state s') "courses.json" =
      Some (Some
              [Course.to_dict
                 (Course.Build "Phys" (1000 + 1) "2024-01-01T00:00:00"
                    "2024-05-01T00:00:00" "09:00" "10:00" 500%float)]).
Proof.
  apply (add_course_over_unreadable_store FragileFile sample_strptime
           sample_float
           (start (World (P := FragileFile)
                     (write_files "courses.json" None (fun _ => None))
                     ["Phys"; "2024-01-01"; "2024-05-01"; "09:00"; "10:00"; "500"]
                     []))
           None "Phys" "2024-01-01" "2024-05-01" "09:00" "10:00" "500" []
           "2024-01-01T00:00:00" "2024-05-01T00:00:00" 500%float).
  - reflexivity.
  - reflexivity.
  - reflexivity.
  - reflexivity.
  - reflexivity.
  - reflexivity.
Defined.

(** X9. [add_course] takes its CRN before it converts the dates and the
    cost. When the start date, or at the very end the cost, does not
    convert, the [ValueError] is not caught: no file is written, but the
    CRN counter has advanced, so that CRN is never given to a course. *)
Theorem add_course_rejected (P : Platform)
    (strptime : string -> option string) (py_float : string -> option float)
    (s : session P) (subject l1 : string) :
  (forall rest,
     stdin (state s) = subject :: l1 :: rest ->
     strptime l1 = None ->
     add_course strptime py_float s =
       (Raise ValueError,
        Session (crn_counter s + 1) (mem_id_counter s) (notices s)
          (World (files (state s)) rest (stdout (state s))))) /\
  (forall l2 st et l3 rest d1 d2,
     stdin (state s) = subject :: l1 :: l2 :: st :: et :: l3 :: rest ->
     strptime l1 = Some d1 -> strptime l2 = Some d2 ->
     py_float l3 = None ->
     add_course strptime py_float s =
       (Raise ValueError,
        Session (crn_counter s + 1) (mem_id_counter s) (notices s)
          (World (files (state s)) rest (stdout (state s))))).
Proof.
  split.
  - intros rest Hin H1. unfold add_course, sbind, on_world, input,
      generate_crn, convert.
    rewrite Hin.
    cbn [fst snd state stdin files stdout crn_counter mem_id_counter notices].
    rewrite H1. reflexivity.
  - intros l2 st et l3 rest d1 d2 Hin H1 H2 H3.
    unfold add_course, sbind, on_world, input, generate_crn, convert.
    rewrite Hin.
    cbn [fst snd state stdin files stdout crn_counter mem_id_counter notices].
    rewrite H1, H2, H3. reflexivity.
Qed.

Lemma add_course_rejected_witness :
  add_course sample_strptime sample_float
    (start (scenario [] []
              ["Phys"; "2024-01-01"; "2024-05-01"; "09:00"; "10:00"; "free"]))
  = (Raise ValueError,
     Session (1000 + 1) 1000 []
       (World (P := RecordFile) (scenario_files [] []) [] [])).
Proof.
  apply (proj2 (add_course_rejected RecordFile sample_strptime sample_float
                  (start (scenario [] []
                     ["Phys"; "2024-01-01"; "2024-05-01"; "09:00"; "10:00";
                      "free"]))
                  "Phys" "2024-01-01")
           "2024-05-01" "09:00" "10:00" "free" []
           "2024-01-01T00:00:00" "2024-05-01T00:00:00").
  - reflexivity.
  - reflexivity.
  - reflexivity.
  - reflexivity.
Defined.

(** ** Registration and what follows it *)

Section MoreRuns.
Context {P : Platform}.

Lemma view_courses_run (w : world P) :
  stored w "courses.json" <> [] ->
  rows_get (stored w "courses.json") = Ret tt ->
  view_courses w = (Ret tt, w).
Proof.
  intros Hne Hrows. unfold view_courses, bind.
  rewrite read_records_file_some by exact Hne.
  destruct (stored w "courses.json"); [congruence|].
  unfold lift. now rewrite Hrows.
Qed.

(** The run of [register_for_course] that registers. *)
Lemma register_for_course_run (w : world P) mem_id pre d suf xs b line rest
    crn cpre c csuf subject cost b' :
  first_match "ID" (JStr mem_id) (stored w "students.json") pre d suf ->
  dict_get "Courses" d = Some (JArr xs) ->
  (List.length xs < 5)%nat ->
  dict_get "Balance" d = Some b ->
  py_ge_int b 10000 = Ret false ->
  rows_get (stored w "courses.json") = Ret tt ->
  stdin w = line :: rest ->
  py_int line = Some crn ->
  first_match "CRN" (JInt crn) (stored w "courses.json") cpre c csuf ->
  dict_get "Subject" c = Some subject ->
  dict_get "Cost" c = Some cost ->
  py_add b cost = Ret b' ->
  register_for_course mem_id w =
    (Ret tt,
     World
       (write_files "students.json"
          (dump_lines
             (pre ++
              JObj (dict_set "Balance" b'
                      (dict_set "Courses" (JArr (xs ++ [subject])) d)) :: suf))
          (files w))
       rest (stdout w ++ [MsgCourseRegistered])).
Proof.
  intros Hm Hcs Hlen Hb Hge Hrows Hin Hint Hc Hsub Hcost Hadd.
  assert (Hne : stored w "courses.json" <> [])
    by (eapply first_match_nonempty; eauto).
  unfold register_for_course, bind.
  rewrite (first_match_stored _ _ _ _ _ _ _ Hm).
  rewrite (for_first_match _ _ _ _ _ pre d suf)
    by (destruct Hm as [_ Hm]; now split).
  unfold lift at 1 2 3 4. unfold getitem at 1 2. rewrite Hcs, Hb.
  cbn [py_len]. replace (5 <=? List.length xs)%nat with false
    by (symmetry; apply Nat.leb_gt; exact Hlen).
  rewrite Hge. rewrite (view_courses_run w Hne Hrows).
  unfold try_ValueError, input, int. rewrite Hin.
  cbn [fst snd stdin files stdout]. rewrite Hint. unfold ret at 1.
  rewrite (read_records_file_some "courses.json"
             (World (files w) rest (stdout w))) by exact Hne.
  rewrite (for_first_match _ _ _ _ _ _ _ _ Hc).
  unfold register_found, bind, lift, getitem. rewrite Hcs, Hsub.
  cbn [py_append]. rewrite dict_get_set_other by discriminate.
  rewrite Hb, Hcost, Hadd. reflexivity.
Qed.

End MoreRuns.

(** X10. A student with fewer than five courses and a balance below
    10000 registers for a course that is in the store (every course
    record being a dict, as the catalogue table needs): the subject of
    the first course with the typed CRN is appended to the student's
    courses, its cost is added to the balance whatever the sum comes to,
    and the student store is rewritten with that record in place. *)
Theorem registration_registers (P : Platform) (w : world P) (mem_id : string)
    (pre : list json) (d : list (string * json)) (suf xs : list json)
    (b : json) (line : string) (rest : list string) (crn : Z)
    (cpre : list json) (c : list (string * json)) (csuf : list json)
    (subject cost b' : json) :
  first_match "ID" (JStr mem_id) (stored w "students.json") pre d suf ->
  dict_get "Courses" d = Some (JArr xs) ->
  (List.length xs < 5)%nat ->
  dict_get "Balance" d = Some b ->
  py_ge_int b 10000 = Ret false ->
  rows_get (stored w "courses.json") = Ret tt ->
  stdin w = line :: rest ->
  py_int line = Some crn ->
  first_match "CRN" (JInt crn) (stored w "courses.json") cpre c csuf ->
  dict_get "Subject" c = Some subject ->
  dict_get "Cost" c = Some cost ->
  py_add b cost = Ret b' ->
  register_for_course mem_id w =
    (Ret tt,
     World
       (write_files "students.json"
          (dump_lines
             (pre ++
              JObj (dict_set "Balance" b'
                      (dict_set "Courses" (JArr (xs ++ [subject])) d)) :: suf))
          (files w))
       rest (stdout w ++ [MsgCourseRegistered])).
Proof. apply register_for_course_run. Qed.

Lemma registration_registers_witness :
  register_for_course "MEM1002"
    (scenario [] [student_S [] (JFloat 9800%float)] ["1001"]) =
  (Ret tt,
   World (P := RecordFile)
     (write_files "students.json"
        ([] ++
         JObj (dict_set "Balance" (JFloat 10300%float)
                 (dict_set "Courses" (JArr ([] ++ [JStr "Math101"]))
                    (student_S_dict [] (JFloat 9800%float)))) :: [])
        (scenario_files [] [student_S [] (JFloat 9800%float)]))
     [] ([] ++ [MsgCourseRegistered])).
Proof.
  apply (registration_registers RecordFile
           (scenario [] [student_S [] (JFloat 9800%float)] ["1001"])
           "MEM1002" [] (student_S_dict [] (JFloat 9800%float)) [] []
           (JFloat 9800%float) "1001" [] 1001 [] math101 []
           (JStr "Math101") (JFloat 500%float) (JFloat 10300%float)).
  - split; [reflexivity|]. split; [constructor|].
    exists (JStr "MEM1002"). split; reflexivity.
  - reflexivity.
  - simpl. lia.
  - reflexivity.
  - vm_compute. reflexivity.
  - reflexivity.
  - reflexivity.
  - reflexivity.
  - split; [reflexivity|]. split; [constructor|].
    exists (JInt 1001). split; reflexivity.
  - reflexivity.
  - reflexivity.
  - vm_compute. reflexivity.
Defined.

Lemma pop_last {A} (xs : list A) (x : A) :
  firstn (List.length xs) (xs ++ [x]) ++
  skipn (S (List.length xs)) (xs ++ [x]) = xs.
Proof.
  rewrite skipn_all2 by (rewrite length_app; simpl; lia).
  rewrite firstn_app, firstn_all, Nat.sub_diag. simpl.
  now rewrite !app_nil_r.
Qed.

Lemma nth_error_last {A} (xs : list A) (x : A) :
  nth_error (xs ++ [x]) (List.length xs) = Some x.
Proof.
  rewrite nth_error_app2 by lia. now rewrite Nat.sub_diag.
Qed.

(** X11. Registering and then unregistering the entry just added gives
    the student the courses held before. The balance becomes the balance
    plus the cost of the course registered, minus the cost of the first
    course in the store that has the same subject, in the program's own
    arithmetic; no other key of the record changes. Reading back what
    was written is assumed to give the records written. *)
Theorem register_then_unregister (P : Platform) (HL : Lawful P)
    (w : world P) (mem_id : string)
    (pre : list json) (d : list (string * json)) (suf xs : list json)
    (b : json) (line1 line2 : string) (rest : list string) (crn : Z)
    (cpre : list json) (c : list (string * json)) (csuf : list json)
    (subject cost b' : json)
    (cpre2 : list json) (c2 : list (string * json)) (csuf2 : list json)
    (cost2 b'' : json) :
  first_match "ID" (JStr mem_id) (stored w "students.json") pre d suf ->
  dict_get "Courses" d = Some (JArr xs) ->
  (List.length xs < 5)%nat ->
  dict_get "Balance" d = Some b ->
  py_ge_int b 10000 = Ret false ->
  rows_get (stored w "courses.json") = Ret tt ->
  stdin w = line1 :: line2 :: rest ->
  py_int line1 = Some crn ->
  first_match "CRN" (JInt crn) (stored w "courses.json") cpre c csuf ->
  dict_get "Subject" c = Some subject ->
  dict_get "Cost" c = Some cost ->
  py_add b cost = Ret b' ->
  py_int line2 = Some (Z.of_nat (List.length xs) + 1) ->
  first_match "Subject" subject (stored w "courses.json") cpre2 c2 csuf2 ->
  dict_get "Cost" c2 = Some cost2 ->
  py_sub b' cost2 = Ret b'' ->
  fst (unregister_from_course mem_id (snd (register_for_course mem_id w)))
    = Ret tt /\
  exists d2,
    stored
      (snd (unregister_from_course mem_id (snd (register_for_course mem_id w))))
      "students.json" = pre ++ JObj d2 :: suf /\
    dict_get "Courses" d2 = Some (JArr xs) /\
    dict_get "Balance" d2 = Some b'' /\
    same_except ["Courses"; "Balance"] d d2.
Proof.
  intros Hm Hcs Hlen Hb Hge Hrows Hin Hint Hc Hsub Hcost Hadd Hint2 Hc2
    Hcost2 Hsubtr.
  rewrite (register_for_course_run w mem_id pre d suf xs b line1 (line2 :: rest)
             crn cpre c csuf subject cost b'
             Hm Hcs Hlen Hb Hge Hrows Hin Hint Hc Hsub Hcost Hadd).
  cbn [snd].
  set (dR := dict_set "Balance" b'
               (dict_set "Courses" (JArr (xs ++ [subject])) d)).
  set (w1 := World _ (line2 :: rest) _).
  assert (HidR : hit "ID" (JStr mem_id) dR).
  { destruct Hm as [_ [_ Hh]]. unfold dR.
    do 2 (apply hit_set; [discriminate|]). exact Hh. }
  assert (Hm1 : first_match "ID" (JStr mem_id) (stored w1 "students.json")
                  pre dR suf)
    by apply (first_match_written HL _ _ _ _ _ _ _ _ _ _ _ Hm HidR).
  assert (Hn : Z.to_nat (Z.of_nat (List.length xs) + 1 - 1) = List.length xs)
    by lia.
  pose (d2 := dict_set "Balance" b''
                (dict_set "Courses"
                   (JArr (firstn (Z.to_nat (Z.of_nat (List.length xs) + 1 - 1))
                            (xs ++ [subject]) ++
                          skipn (S (Z.to_nat (Z.of_nat (List.length xs) + 1 - 1)))
                            (xs ++ [subject])))
                   dR)).
  destruct (unregister_from_course_run w1 mem_id pre dR suf (xs ++ [subject])
              line2 rest (Z.of_nat (List.length xs) + 1) subject d2) as [H1 H2].
  - exact Hm1.
  - unfold dR. rewrite dict_get_set_other by discriminate.
    apply dict_get_set_same.
  - reflexivity.
  - exact Hint2.
  - lia.
  - rewrite Hn. apply nth_error_last.
  - intros w2. change (stored w1 "courses.json") with (stored w "courses.json").
    rewrite (for_first_match _ _ _ _ _ _ _ _ Hc2).
    unfold bind, lift, getitem. rewrite dict_get_set_other by discriminate.
    unfold dR at 1. rewrite dict_get_set_same, Hcost2, Hsubtr. reflexivity.
  - split; [exact H1|]. exists d2. split; [|split; [|split]].
    + unfold stored. rewrite H2. unfold write_files.
      now rewrite String.eqb_refl, HL.
    + unfold d2. rewrite dict_get_set_other by discriminate.
      rewrite dict_get_set_same, Hn. now rewrite pop_last.
    + apply dict_get_set_same.
    + unfold d2, dR.
      repeat (apply same_except_set; [simpl; auto|]). apply same_except_refl.
Qed.

Lemma register_then_unregister_witness :
  fst (unregister_from_course "MEM1002"
         (snd (register_for_course "MEM1002"
                 (scenario [] [student_S [] (JFloat 0%float)] ["1001"; "1"]))))
    = Ret tt /\
  exists d2,
    stored
      (snd (unregister_from_course "MEM1002"
              (snd (register_for_course "MEM1002"
                      (scenario [] [student_S [] (JFloat 0%float)]
                         ["1001"; "1"]))))) "students.json"
      = [] ++ JObj d2 :: [] /\
    dict_get "Courses" d2 = Some (JArr []) /\
    dict_get "Balance" d2 = Some (JFloat 0%float) /\
    same_except ["Courses"; "Balance"] (student_S_dict [] (JFloat 0%float)) d2.
Proof.
  apply (register_then_unregister RecordFile RecordFile_lawful
           (scenario [] [student_S [] (JFloat 0%float)] ["1001"; "1"])
           "MEM1002" [] (student_S_dict [] (JFloat 0%float)) [] []
           (JFloat 0%float) "1001" "1" [] 1001 [] math101 []
           (JStr "Math101") (JFloat 500%float) (JFloat 500%float)
           [] math101 [] (JFloat 500%float) (JFloat 0%float)).
  - split; [reflexivity|]. split; [constructor|].
    exists (JStr "MEM1002"). split; reflexivity.
  - reflexivity.
  - simpl. lia.
  - reflexivity.
  - vm_compute. reflexivity.
  - reflexivity.
  - reflexivity.
  - reflexivity.
  - split; [reflexivity|]. split; [constructor|].
    exists (JInt 1001). split; reflexivity.
  - reflexivity.
  - reflexivity.
  - vm_compute. reflexivity.
  - reflexivity.
  - split; [reflexivity|]. split; [constructor|].
    exists (JStr "Math101"). split; reflexivity.
  - reflexivity.
  - vm_compute. reflexivity.
Defined.

(** In floating point the balance need not come back: 0.5 plus 1e16 minus
    1e16 is 0.0. *)
Example balance_not_restored :
  py_add (JFloat 0.5%float) (JFloat 1e16%float) = Ret (JFloat 1e16%float) /\
  py_sub (JFloat 1e16%float) (JFloat 1e16%float) = Ret (JFloat 0%float).
Proof. split; vm_compute; reflexivity. Qed.

(** ** Answers that are refused *)

Section Refusals.
Context {P : Platform}.

Lemma for_first_blocked {A} key target
    (found : list json -> list (string * json) -> list json -> M P A)
    not_found pre : forall before d suf,
  Forall (passed key target) pre -> dict_get key d = None ->
  for_first key target found not_found before (pre ++ JObj d :: suf)
  = raise KeyError.
Proof.
  induction pre as [|r pre IH]; intros before d suf Hpre Hd; simpl.
  - now rewrite Hd.
  - inversion Hpre as [|? ? [dr [vr [-> [Hr Hne]]]] Hrest]; subst.
    rewrite Hr, Hne. now apply IH.
Qed.

Lemma read_records_file_world name (w : world P) :
  exists out,
    read_records_file name w =
      (Ret (stored w name), World (files w) (stdin w) (stdout w ++ out)).
Proof.
  unfold read_records_file, stored.
  destruct (files w name) as [c|].
  - destruct (load_lines c).
    + exists []. destruct w; simpl. now rewrite app_nil_r.
    + exists [MsgErrorReadingFile]. reflexivity.
  - exists []. destruct w; simpl. now rewrite app_nil_r.
Qed.

Lemma truthy_nonempty (xs : list json) : xs <> [] -> truthy (JArr xs) = true.
Proof. destruct xs; [congruence | reflexivity]. Qed.

Lemma out_of_range n len :
  n < 1 \/ Z.of_nat len < n ->
  (0 <=? n - 1) && (n - 1 <? Z.of_nat len) = false.
Proof.
  intros H. apply andb_false_iff.
  destruct H; [left; apply Z.leb_gt | right; apply Z.ltb_ge]; lia.
Qed.

End Refusals.

(** X12. [unassign_course] for a professor who is found. Without courses
    (no [Courses], or an empty list) it says so and asks nothing. With
    courses, an answer that is no number, or a number outside 1..len, is
    reported and nothing is written. *)
Theorem unassign_course_refusals (P : Platform) (w : world P) (mem_id : string)
    (pre : list json) (d : list (string * json)) (suf : list json) :
  first_match "ID" (JStr mem_id) (stored w "employees.json") pre d suf ->
  (dict_get "Courses" d = None \/ dict_get "Courses" d = Some (JArr []) ->
   unassign_course mem_id w =
     (Ret tt, World (files w) (stdin w) (stdout w ++ [MsgNoAssignedCourses]))) /\
  (forall xs line rest,
     dict_get "Courses" d = Some (JArr xs) -> xs <> [] ->
     rows_get xs = Ret tt ->
     stdin w = line :: rest ->
     (py_int line = None ->
      unassign_course mem_id w =
        (Ret tt, World (files w) rest (stdout w ++ [MsgInvalidNumber]))) /\
     (forall n, py_int line = Some n ->
                n < 1 \/ Z.of_nat (List.length xs) < n ->
      unassign_course mem_id w =
        (Ret tt, World (files w) rest (stdout w ++ [MsgInvalidCourseNumber])))).
Proof.
  intros Hm.
  assert (E : unassign_course mem_id w = unassign_found pre d suf w).
  { unfold unassign_course, bind.
    rewrite (first_match_stored _ _ _ _ _ _ _ Hm).
    now rewrite (for_first_match _ _ _ _ _ pre d suf)
      by (destruct Hm as [_ Hm]; now split). }
  rewrite E. unfold unassign_found. split.
  - intros [-> | ->]; reflexivity.
  - intros xs line rest Hxs Hne Hrows Hin. rewrite Hxs.
    rewrite (truthy_nonempty xs Hne).
    unfold bind, lift, try_ValueError, input, int, py_iter.
    rewrite Hrows, Hin. cbn [fst snd stdin files stdout]. split.
    + intros ->. reflexivity.
    + intros n -> Hn. unfold ret. cbn [py_len].
      now rewrite (out_of_range n _ Hn).
Qed.

Lemma unassign_course_refusals_witness :
  unassign_course "MEM1001" (scenario [JObj bare_employee] [] ["1"]) =
  (Ret tt,
   World (P := RecordFile) (scenario_files [JObj bare_employee] []) ["1"]
     ([] ++ [MsgNoAssignedCourses])).
Proof.
  assert (Hm : first_match "ID" (JStr "MEM1001")
                 (stored (scenario [JObj bare_employee] [] ["1"])
                    "employees.json") [] bare_employee []).
  { split; [reflexivity|]. split; [constructor|].
    exists (JStr "MEM1001"). split; reflexivity. }
  apply (proj1 (unassign_course_refusals RecordFile
                  (scenario [JObj bare_employee] [] ["1"]) "MEM1001"
                  [] bare_employee [] Hm)).
  left. reflexivity.
Defined.

(** X13. [unregister_from_course] for a student who is found: the same
    three refusals. Nothing is written, and the balance is not touched. *)
Theorem unregister_from_course_refusals (P : Platform) (w : world P)
    (mem_id : string) (pre : list json) (d : list (string * json))
    (suf : list json) :
  first_match "ID" (JStr mem_id) (stored w "students.json") pre d suf ->
  (dict_get "Courses" d = None \/ dict_get "Courses" d = Some (JArr []) ->
   unregister_from_course mem_id w =
     (Ret tt,
      World (files w) (stdin w) (stdout w ++ [MsgNoCoursesToUnregister]))) /\
  (forall xs line rest,
     dict_get "Courses" d = Some (JArr xs) -> xs <> [] ->
     stdin w = line :: rest ->
     (py_int line = None ->
      unregister_from_course mem_id w =
        (Ret tt, World (files w) rest (stdout w ++ [MsgInvalidNumber]))) /\
     (forall n, py_int line = Some n ->
                n < 1 \/ Z.of_nat (List.length xs) < n ->
      unregister_from_course mem_id w =
        (Ret tt, World (files w) rest (stdout w ++ [MsgInvalidCourseNumber])))).
Proof.
  intros Hm.
  assert (E : unregister_from_course mem_id w = unregister_found pre d suf w).
  { unfold unregister_from_course, bind.
    rewrite (first_match_stored _ _ _ _ _ _ _ Hm).
    now rewrite (for_first_match _ _ _ _ _ pre d suf)
      by (destruct Hm as [_ Hm]; now split). }
  rewrite E. unfold unregister_found. split.
  - intros [-> | ->]; reflexivity.
  - intros xs line rest Hxs Hne Hin. rewrite Hxs.
    rewrite (truthy_nonempty xs Hne).
    unfold bind, lift, try_ValueError, input, int, py_iter.
    rewrite Hin. cbn [fst snd stdin files stdout]. split.
    + intros ->. reflexivity.
    + intros n -> Hn. unfold ret. cbn [py_len].
      now rewrite (out_of_range n _ Hn).
Qed.

Lemma unregister_from_course_refusals_witness :
  unregister_from_course "MEM1002"
    (scenario [] [student_S [JStr "Math101"] (JFloat 500%float)] ["2"]) =
  (Ret tt,
   World (P := RecordFile)
     (scenario_files [] [student_S [JStr "Math101"] (JFloat 500%float)]) []
     ([] ++ [MsgInvalidCourseNumber])).
Proof.
  assert (Hm : first_match "ID" (JStr "MEM1002")
                 (stored (scenario [] [student_S [JStr "Math101"]
                                         (JFloat 500%float)] ["2"])
                    "students.json")
                 [] (student_S_dict [JStr "Math101"] (JFloat 500%float)) []).
  { split; [reflexivity|]. split; [constructor|].
    exists (JStr "MEM1002"). split; reflexivity. }
  apply (proj2 (proj2 (unregister_from_course_refusals RecordFile
                         (scenario [] [student_S [JStr "Math101"]
                                         (JFloat 500%float)] ["2"])
                         "MEM1002" [] _ [] Hm)
                  [JStr "Math101"] "2" [] eq_refl
                  ltac:(discriminate) eq_refl) 2).
  - reflexivity.
  - right. simpl. lia.
Defined.

(** X14. A student who passes the two checks of [register_for_course],
    with a course store of dicts that is not empty: a typed CRN that is
    no number is reported as invalid, a CRN that no course has is
    reported as not found, and in both cases nothing is written. *)
Theorem register_for_course_refusals (P : Platform) (w : world P)
    (mem_id : string) (pre : list json) (d : list (string * json))
    (suf xs : list json) (b : json) (line : string) (rest : list string) :
  first_match "ID" (JStr mem_id) (stored w "students.json") pre d suf ->
  dict_get "Courses" d = Some (JArr xs) ->
  (List.length xs < 5)%nat ->
  dict_get "Balance" d = Some b ->
  py_ge_int b 10000 = Ret false ->
  stored w "courses.json" <> [] ->
  rows_get (stored w "courses.json") = Ret tt ->
  stdin w = line :: rest ->
  (py_int line = None ->
   register_for_course mem_id w =
     (Ret tt, World (files w) rest (stdout w ++ [MsgInvalidCRN]))) /\
  (forall crn,
     py_int line = Some crn ->
     Forall (passed "CRN" (JInt crn)) (stored w "courses.json") ->
     register_for_course mem_id w =
       (Ret tt, World (files w) rest (stdout w ++ [MsgCourseNotFound]))).
Proof.
  intros Hm Hcs Hlen Hb Hge Hne Hrows Hin.
  assert (E : register_for_course mem_id w =
              try_ValueError
                (bind input (fun line =>
                 bind (int line) (fun crn =>
                 bind (read_records_file "courses.json") (fun courses =>
                 for_first "CRN" (JInt crn)
                   (fun _ course _ => register_found pre d suf course)
                   (print MsgCourseNotFound) [] courses))))
                (print MsgInvalidCRN) w).
  { unfold register_for_course. unfold bind at 1.
    rewrite (first_match_stored _ _ _ _ _ _ _ Hm).
    rewrite (for_first_match _ _ _ _ _ pre d suf)
      by (destruct Hm as [_ Hm]; now split).
    unfold bind at 1 2 3 4 5. unfold lift at 1 2 3 4. unfold getitem at 1 2.
    rewrite Hcs, Hb. cbn [py_len].
    replace (5 <=? List.length xs)%nat with false
      by (symmetry; apply Nat.leb_gt; exact Hlen).
    rewrite Hge. now rewrite (view_courses_run w Hne Hrows). }
  rewrite E. unfold try_ValueError, bind, input, int. rewrite Hin.
  cbn [fst snd stdin files stdout]. split.
  - intros ->. reflexivity.
  - intros crn -> Hall. unfold ret at 1.
    rewrite (read_records_file_some "courses.json"
               (World (files w) rest (stdout w))) by exact Hne.
    now rewrite for_first_miss by exact Hall.
Qed.

Lemma register_for_course_refusals_witness :
  register_for_course "MEM1002"
    (scenario [] [student_S [] (JFloat 0%float)] ["Math101"]) =
  (Ret tt,
   World (P := RecordFile) (scenario_files [] [student_S [] (JFloat 0%float)])
     [] ([] ++ [MsgInvalidCRN])).
Proof.
  assert (Hm : first_match "ID" (JStr "MEM1002")
                 (stored (scenario [] [student_S [] (JFloat 0%float)]
                            ["Math101"]) "students.json")
                 [] (student_S_dict [] (JFloat 0%float)) []).
  { split; [reflexivity|]. split; [constructor|].
    exists (JStr "MEM1002"). split; reflexivity. }
  apply (proj1 (register_for_course_refusals RecordFile
                  (scenario [] [student_S [] (JFloat 0%float)] ["Math101"])
                  "MEM1002" [] (student_S_dict [] (JFloat 0%float)) [] []
                  (JFloat 0%float) "Math101" [] Hm eq_refl
                  ltac:(simpl; lia) eq_refl ltac:(vm_compute; reflexivity)
                  ltac:(discriminate) eq_refl eq_refl)).
  reflexivity.
Defined.

(** X15. In [assign_course_to_employee] the conversion of the typed CRN
    stands outside any [try]: a CRN that is no number raises [ValueError]
    out of the operation, before any file is read. *)
Theorem assign_course_to_employee_bad_crn (P : Platform) (w : world P)
    (mem_id line : string) (rest : list string) :
  stdin w = mem_id :: line :: rest ->
  py_int line = None ->
  assign_course_to_employee w =
    (Raise ValueError, World (files w) rest (stdout w)).
Proof.
  intros Hin Hint. unfold assign_course_to_employee, bind, input, int.
  rewrite Hin. cbn [fst snd stdin files stdout]. now rewrite Hint.
Qed.

Lemma assign_course_to_employee_bad_crn_witness :
  assign_course_to_employee (scenario [employee_E] [] ["MEM1001"; "Math101"]) =
  (Raise ValueError,
   World (P := RecordFile) (scenario_files [employee_E] []) [] []).
Proof.
  apply (assign_course_to_employee_bad_crn RecordFile
           (scenario [employee_E] [] ["MEM1001"; "Math101"])
           "MEM1001" "Math101" []).
  - reflexivity.
  - reflexivity.
Defined.

(** X16. A stored record without an [ID] stops every lookup that reaches
    it: with such a record in the store after records that do not match,
    [unassign_course], [register_for_course] and [unregister_from_course]
    raise [KeyError] without asking or writing anything, whatever member
    is looked up and whatever records follow. *)
Theorem record_without_id_blocks (P : Platform) (w : world P) (mem_id : string)
    (pre : list json) (d : list (string * json)) (suf : list json) :
  Forall (passed "ID" (JStr mem_id)) pre ->
  dict_get "ID" d = None ->
  (stored w "employees.json" = pre ++ JObj d :: suf ->
   unassign_course mem_id w = (Raise KeyError, w)) /\
  (stored w "students.json" = pre ++ JObj d :: suf ->
   register_for_course mem_id w = (Raise KeyError, w) /\
   unregister_from_course mem_id w = (Raise KeyError, w)).
Proof.
  intros Hpre Hd.
  assert (Hr : forall name, stored w name = pre ++ JObj d :: suf ->
                 read_records_file name w = (Ret (pre ++ JObj d :: suf), w)).
  { intros name H. rewrite <- H. apply read_records_file_some.
    rewrite H. now destruct pre. }
  split; intros H.
  - unfold unassign_course, bind. rewrite (Hr _ H).
    now rewrite for_first_blocked.
  - split.
    + unfold register_for_course, bind. rewrite (Hr _ H).
      now rewrite for_first_blocked.
    + unfold unregister_from_course, bind. rewrite (Hr _ H).
      now rewrite for_first_blocked.
Qed.

Lemma record_without_id_blocks_witness :
  register_for_course "MEM1002"
    (scenario [] [JObj [("Name", JStr "T")]; student_S [] (JFloat 0%float)]
       ["1001"]) =
  (Raise KeyError,
   scenario [] [JObj [("Name", JStr "T")]; student_S [] (JFloat 0%float)]
     ["1001"]).
Proof.
  apply (proj1 (proj2 (record_without_id_blocks RecordFile
                  (scenario []
                     [JObj [("Name", JStr "T")]; student_S [] (JFloat 0%float)]
                     ["1001"])
                  "MEM1002" [] [("Name", JStr "T")]
                  [student_S [] (JFloat 0%float)]
                  (Forall_nil _) eq_refl)
                  eq_refl)).
Defined.

(** X17. When every stored record has an [ID] other than the one looked
    up (an empty, missing or unreadable store included), [unassign_course],
    [register_for_course] and [unregister_from_course] report that the
    member is not found and return, with no file written and no line of
    input taken. *)
Theorem unknown_member_reported (P : Platform) (w : world P) (mem_id : string) :
  (Forall (passed "ID" (JStr mem_id)) (stored w "employees.json") ->
   exists out,
     unassign_course mem_id w =
       (Ret tt,
        World (files w) (stdin w)
          ((stdout w ++ out) ++ [MsgProfessorNotFound]))) /\
  (Forall (passed "ID" (JStr mem_id)) (stored w "students.json") ->
   exists out,
     register_for_course mem_id w =
       (Ret tt,
        World (files w) (stdin w) ((stdout w ++ out) ++ [MsgStudentNotFound])) /\
     unregister_from_course mem_id w =
       (Ret tt,
        World (files w) (stdin w) ((stdout w ++ out) ++ [MsgStudentNotFound]))).
Proof.
  split; intros Hall.
  - destruct (read_records_file_world "employees.json" w) as [out E].
    exists out. unfold unassign_course, bind. rewrite E.
    now rewrite for_first_miss by exact Hall.
  - destruct (read_records_file_world "students.json" w) as [out E].
    exists out. split.
    + unfold register_for_course, bind. rewrite E.
      now rewrite for_first_miss by exact Hall.
    + unfold unregister_from_course, bind. rewrite E.
      now rewrite for_first_miss by exact Hall.
Qed.

Lemma unknown_member_reported_witness :
  exists out,
    unassign_course "MEM2000" (scenario [JObj bare_employee] [] ["1"]) =
    (Ret tt,
     World (P := RecordFile) (scenario_files [JObj bare_employee] []) ["1"]
       (([] ++ out) ++ [MsgProfessorNotFound])).
Proof.
  apply (proj1 (unknown_member_reported RecordFile
                  (scenario [JObj bare_employee] [] ["1"]) "MEM2000")).
  repeat constructor. exists bare_employee, (JStr "MEM1001").
  repeat split; reflexivity.
Defined.

(** ** What the views show after a change *)

Lemma lookup_field_run {P : Platform} (w : world P) name field missing mem_id
    pre d suf v :
  first_match "ID" (JStr mem_id) (stored w name) pre d suf ->
  dict_get field d = Some v ->
  lookup_field name field missing mem_id w = (Ret (Some v), w).
Proof.
  intros Hm Hv. unfold lookup_field, bind.
  rewrite (first_match_stored _ _ _ _ _ _ _ Hm).
  rewrite (for_first_match _ _ _ _ _ pre d suf)
    by (destruct Hm as [_ Hm]; now split).
  unfold lift, getitem. now rewrite Hv.
Qed.

(** X18. After an assignment that goes through, [view_monthly_salary]
    for the same member shows 30000 + 5000 * the number of courses the
    record now lists, and changes nothing. Reading back what was written
    is assumed to give the records written. *)
Theorem salary_shown_after_assignment (P : Platform) (HL : Lawful P)
    (s : session P) (mem_id : string) (crn : Z)
    (pre : list json) (d : list (string * json)) (suf cpre : list json)
    (c : list (string * json)) (csuf : list json)
    (d1 : list (string * json)) (xs : list json) (name subject : json) :
  first_match "ID" (JStr mem_id) (stored (state s) "employees.json") pre d suf ->
  first_match "CRN" (JInt crn) (stored (state s) "courses.json") cpre c csuf ->
  d1 = match dict_get "Courses" d with
       | None => dict_set "Courses" (JArr []) d
       | Some _ => d
       end ->
  dict_get "Courses" d1 = Some (JArr xs) ->
  dict_get "Subject" c = Some subject ->
  dict_get "Name" d = Some name ->
  view_monthly_salary mem_id (snd (on_world (assign_course_with mem_id crn) s)) =
    (Ret tt,
     Session (crn_counter s) (mem_id_counter s)
       (notices s ++
        [NoteMonthlySalary
           (JInt (30000 + 5000 * Z.of_nat (List.length (xs ++ [JObj c]))))])
       (state (snd (on_world (assign_course_with mem_id crn) s)))).
Proof.
  intros Hm Hc Hd1 Hxs Hsub Hname.
  unfold on_world at 1 2. cbn [snd].
  rewrite (assign_course_with_run (state s) mem_id crn pre d suf cpre c csuf d1
             xs name subject Hm Hc Hd1 Hxs Hsub Hname).
  cbn [snd]. unfold view_monthly_salary, sbind, on_world.
  cbn [state crn_counter mem_id_counter notices].
  erewrite lookup_field_run.
  - cbn [fst snd]. unfold note.
    cbn [state crn_counter mem_id_counter notices]. reflexivity.
  - apply (first_match_written HL _ _ _ _ _ _ _ _ _ _ _ Hm).
    destruct Hm as [_ [_ Hh]]. do 2 (apply hit_set; [discriminate|]).
    subst d1. destruct (dict_get "Courses" d); [exact Hh|].
    apply hit_set; [discriminate | exact Hh].
  - rewrite dict_get_set_same, length_app. cbn [List.length].
    apply f_equal. apply f_equal. lia.
Qed.

Lemma salary_shown_after_assignment_witness :
  view_monthly_salary "MEM1001"
    (snd (on_world (assign_course_with "MEM1001" 1001)
            (start (scenario [JObj bare_employee] [] [])))) =
  (Ret tt,
   Session 1000 1000
     ([] ++
      [NoteMonthlySalary
         (JInt (30000 + 5000 * Z.of_nat (List.length ([] ++ [JObj math101]))))])
     (state (snd (on_world (assign_course_with "MEM1001" 1001)
                    (start (scenario [JObj bare_employee] [] [])))))).
Proof.
  apply (salary_shown_after_assignment RecordFile RecordFile_lawful
           (start (scenario [JObj bare_employee] [] [])) "MEM1001" 1001
           [] bare_employee [] [] math101 []
           (dict_set "Courses" (JArr []) bare_employee) []
           (JStr "E") (JStr "Math101")).
  - split; [reflexivity|]. split; [constructor|].
    exists (JStr "MEM1001"). split; reflexivity.
  - split; [reflexivity|]. split; [constructor|].
    exists (JInt 1001). split; reflexivity.
  - reflexivity.
  - reflexivity.
  - reflexivity.
  - reflexivity.
Defined.

(** X19. After a registration that goes through, [check_student_balance]
    for the same student shows the balance plus the cost of the course,
    and changes nothing. Reading back what was written is assumed to give
    the records written. *)
Theorem balance_shown_after_registration (P : Platform) (HL : Lawful P)
    (s : session P) (mem_id : string)
    (pre : list json) (d : list (string * json)) (suf xs : list json)
    (b : json) (line : string) (rest : list string) (crn : Z)
    (cpre : list json) (c : list (string * json)) (csuf : list json)
    (subject cost b' : json) :
  first_match "ID" (JStr mem_id) (stored (state s) "students.json") pre d suf ->
  dict_get "Courses" d = Some (JArr xs) ->
  (List.length xs < 5)%nat ->
  dict_get "Balance" d = Some b ->
  py_ge_int b 10000 = Ret false ->
  rows_get (stored (state s) "courses.json") = Ret tt ->
  stdin (state s) = line :: rest ->
  py_int line = Some crn ->
  first_match "CRN" (JInt crn) (stored (state s) "courses.json") cpre c csuf ->
  dict_get "Subject" c = Some subject ->
  dict_get "Cost" c = Some cost ->
  py_add b cost = Ret b' ->
  check_student_balance mem_id
    (snd (on_world (register_for_course mem_id) s)) =
    (Ret tt,
     Session (crn_counter s) (mem_id_counter s)
       (notices s ++ [NoteBalance b'])
       (state (snd (on_world (register_for_course mem_id) s)))).
Proof.
  intros Hm Hcs Hlen Hb Hge Hrows Hin Hint Hc Hsub Hcost Hadd.
  unfold on_world at 1 2. cbn [snd].
  rewrite (register_for_course_run (state s) mem_id pre d suf xs b line rest
             crn cpre c csuf subject cost b'
             Hm Hcs Hlen Hb Hge Hrows Hin Hint Hc Hsub Hcost Hadd).
  cbn [snd]. unfold check_student_balance, sbind, on_world.
  cbn [state crn_counter mem_id_counter notices].
  erewrite lookup_field_run.
  - cbn [fst snd]. unfold note.
    cbn [state crn_counter mem_id_counter notices]. reflexivity.
  - apply (first_match_written HL _ _ _ _ _ _ _ _ _ _ _ Hm).
    destruct Hm as [_ [_ Hh]]. do 2 (apply hit_set; [discriminate|]).
    exact Hh.
  - apply dict_get_set_same.
Qed.

Lemma balance_shown_after_registration_witness :
  check_student_balance "MEM1002"
    (snd (on_world (register_for_course "MEM1002")
            (start (scenario [] [student_S [] (JFloat 0%float)] ["1001"])))) =
  (Ret tt,
   Session 1000 1000 ([] ++ [NoteBalance (JFloat 500%float)])
     (state (snd (on_world (register_for_course "MEM1002")
                    (start (scenario [] [student_S [] (JFloat 0%float)]
                              ["1001"])))))).
Proof.
  apply (balance_shown_after_registration RecordFile RecordFile_lawful
           (start (scenario [] [student_S [] (JFloat 0%float)] ["1001"]))
           "MEM1002" [] (student_S_dict [] (JFloat 0%float)) [] []
           (JFloat 0%float) "1001" [] 1001 [] math101 []
           (JStr "Math101") (JFloat 500%float) (JFloat 500%float)).
  - split; [reflexivity|]. split; [constructor|].
    exists (JStr "MEM1002"). split; reflexivity.
  - reflexivity.
  - simpl. lia.
  - reflexivity.
  - vm_compute. reflexivity.
  - reflexivity.
  - reflexivity.
  - reflexivity.
  - split; [reflexivity|]. split; [constructor|].
    exists (JInt 1001). split; reflexivity.
  - reflexivity.
  - reflexivity.
  - vm_compute. reflexivity.
Defined.

(** ** Assignment and unassignment in general *)

(** X20. [assign_course_to_employee] with a member ID and a CRN typed:
    when the employee and a course with that CRN are found (the record
    has a [Name], the course a [Subject]), a copy of the first such
    course record is appended to the employee's courses, after those
    already there, the salary is set from the new count, and the employee
    store is rewritten with that record in place. *)
Theorem assignment_appends_snapshot (P : Platform) (w : world P)
    (mem_id line : string) (rest : list string) (crn : Z)
    (pre : list json) (d : list (string * json)) (suf cpre : list json)
    (c : list (string * json)) (csuf xs : list json) (name subject : json) :
  stdin w = mem_id :: line :: rest ->
  py_int line = Some crn ->
  first_match "ID" (JStr mem_id) (stored w "employees.json") pre d suf ->
  first_match "CRN" (JInt crn) (stored w "courses.json") cpre c csuf ->
  dict_get "Courses" d = Some (JArr xs) ->
  dict_get "Name" d = Some name ->
  dict_get "Subject" c = Some subject ->
  assign_course_to_employee w =
    (Ret tt,
     World
       (write_files "employees.json"
          (dump_lines
             (pre ++
              JObj (dict_set "Salary"
                      (JInt (30000 + Z.of_nat (List.length xs + 1) * 5000))
                      (dict_set "Courses" (JArr (xs ++ [JObj c])) d)) :: suf))
          (files w))
       rest (stdout w ++ [MsgCourseAssigned subject name])).
Proof.
  intros Hin Hint Hm Hc Hxs Hname Hsub.
  rewrite (assign_course_to_employee_typed w mem_id line rest crn Hin Hint).
  apply (assign_course_with_run (World (files w) rest (stdout w)) mem_id crn
           pre d suf cpre c csuf d xs name subject Hm Hc); auto.
  now rewrite Hxs.
Qed.

Lemma assignment_appends_snapshot_witness :
  assign_course_to_employee (scenario [employee_E] [] ["MEM1001"; "1001"]) =
  (Ret tt,
   World (P := RecordFile)
     (write_files "employees.json"
        ([] ++
         JObj (dict_set "Salary"
                 (JInt (30000 + Z.of_nat (List.length (@nil json) + 1) * 5000))
                 (dict_set "Courses" (JArr ([] ++ [JObj math101]))
                    [("Name", JStr "E"); ("ID", JStr "MEM1001");
                     ("DOB", JStr "1990-01-01T00:00:00");
                     ("Address",
                      JObj [("city", JStr "Riyadh"); ("country", JStr "SA");
                            ("zip_code", JStr "11564")]);
                     ("Department", JStr "Math"); ("Courses", JArr []);
                     ("Salary", JInt 30000)])) :: [])
        (scenario_files [employee_E] []))
     [] ([] ++ [MsgCourseAssigned (JStr "Math101") (JStr "E")])).
Proof.
  apply (assignment_appends_snapshot RecordFile
           (scenario [employee_E] [] ["MEM1001"; "1001"])
           "MEM1001" "1001" [] 1001 []
           [("Name", JStr "E"); ("ID", JStr "MEM1001");
            ("DOB", JStr "1990-01-01T00:00:00");
            ("Address",
             JObj [("city", JStr "Riyadh"); ("country", JStr "SA");
                   ("zip_code", JStr "11564")]);
            ("Department", JStr "Math"); ("Courses", JArr []);
            ("Salary", JInt 30000)]
           [] [] math101 [] [] (JStr "E") (JStr "Math101")).
  - reflexivity.
  - reflexivity.
  - split; [reflexivity|]. split; [constructor|].
    exists (JStr "MEM1001"). split; reflexivity.
  - split; [reflexivity|]. split; [constructor|].
    exists (JInt 1001). split; reflexivity.
  - reflexivity.
  - reflexivity.
  - reflexivity.
Defined.

(** X21. [unassign_course] at a valid number [n], counted from 1, for a
    professor whose courses are all dicts, the one removed having a
    [Subject]: exactly entry [n] is removed, the others keep their order,
    the salary is set from the new count, and the employee store is
    rewritten with that record in place. *)
Theorem unassignment_removes_entry (P : Platform) (w : world P)
    (mem_id : string) (pre : list json) (d : list (string * json))
    (suf xs : list json) (line : string) (rest : list string) (n : Z)
    (removed subject : json) :
  first_match "ID" (JStr mem_id) (stored w "employees.json") pre d suf ->
  dict_get "Courses" d = Some (JArr xs) ->
  rows_get xs = Ret tt ->
  stdin w = line :: rest ->
  py_int line = Some n ->
  nth_error xs (Z.to_nat (n - 1)) = Some removed ->
  1 <= n ->
  getitem removed "Subject" = Ret subject ->
  unassign_course mem_id w =
    (Ret tt,
     World
       (write_files "employees.json"
          (dump_lines
             (pre ++
              JObj (dict_set "Salary"
                      (JInt (30000 +
                             Z.of_nat
                               (List.length
                                  (firstn (Z.to_nat (n - 1)) xs ++
                                   skipn (S (Z.to_nat (n - 1))) xs)) * 5000))
                      (dict_set "Courses"
                         (JArr (firstn (Z.to_nat (n - 1)) xs ++
                                skipn (S (Z.to_nat (n - 1))) xs)) d)) :: suf))
          (files w))
       rest (stdout w ++ [MsgCourseUnassigned subject])).
Proof. intros. eapply unassign_course_with_run; eassumption. Qed.

Lemma unassignment_removes_entry_witness :
  unassign_course "MEM1001"
    (scenario
       [JObj (bare_employee ++
              [("Courses", JArr [JObj math101; JObj [("Subject", JStr "Art")]])])]
       [] ["2"]) =
  (Ret tt,
   World (P := RecordFile)
     (write_files "employees.json"
        ([] ++
         JObj (dict_set "Salary" (JInt (30000 + Z.of_nat 1 * 5000))
                 (dict_set "Courses" (JArr ([JObj math101] ++ []))
                    (bare_employee ++
                     [("Courses",
                       JArr [JObj math101; JObj [("Subject", JStr "Art")]])])))
         :: [])
        (scenario_files
           [JObj (bare_employee ++
                  [("Courses",
                    JArr [JObj math101; JObj [("Subject", JStr "Art")]])])] []))
     [] ([] ++ [MsgCourseUnassigned (JStr "Art")])).
Proof.
  apply (unassignment_removes_entry RecordFile
           (scenario
              [JObj (bare_employee ++
                     [("Courses",
                       JArr [JObj math101; JObj [("Subject", JStr "Art")]])])]
              [] ["2"])
           "MEM1001" []
           (bare_employee ++
            [("Courses", JArr [JObj math101; JObj [("Subject", JStr "Art")]])])
           [] [JObj math101; JObj [("Subject", JStr "Art")]] "2" [] 2
           (JObj [("Subject", JStr "Art")]) (JStr "Art")).
  - split; [reflexivity|]. split; [constructor|].
    exists (JStr "MEM1001"). split; reflexivity.
  - reflexivity.
  - reflexivity.
  - reflexivity.
  - reflexivity.
  - reflexivity.
  - lia.
  - reflexivity.
Defined.

(** X22. [assign_course_to_employee] with a member ID and a CRN typed:
    when no employee has the ID, or the employee is found and no course
    has the CRN, this is reported and nothing is written. *)
Theorem assignment_not_found (P : Platform) (w : world P)
    (mem_id line : string) (rest : list string) (crn : Z) :
  stdin w = mem_id :: line :: rest ->
  py_int line = Some crn ->
  stored w "employees.json" <> [] ->
  stored w "courses.json" <> [] ->
  (Forall (passed "ID" (JStr mem_id)) (stored w "employees.json") ->
   assign_course_to_employee w =
     (Ret tt, World (files w) rest (stdout w ++ [MsgEmployeeNotFound]))) /\
  (forall pre d suf,
     first_match "ID" (JStr mem_id) (stored w "employees.json") pre d suf ->
     Forall (passed "CRN" (JInt crn)) (stored w "courses.json") ->
     assign_course_to_employee w =
       (Ret tt, World (files w) rest (stdout w ++ [MsgCourseNotFound]))).
Proof.
  intros Hin Hint He Hc.
  rewrite (assign_course_to_employee_typed w mem_id line rest crn Hin Hint).
  unfold assign_course_with, bind.
  rewrite (read_records_file_some "employees.json"
             (World (files w) rest (stdout w))) by exact He.
  rewrite (read_records_file_some "courses.json"
             (World (files w) rest (stdout w))) by exact Hc.
  change (stored (World (files w) rest (stdout w))) with (stored w).
  split.
  - intros Hall. now rewrite for_first_miss by exact Hall.
  - intros pre d suf Hm Hall.
    rewrite (for_first_match _ _ _ _ _ _ _ _ Hm).
    now rewrite for_first_miss by exact Hall.
Qed.

Lemma assignment_not_found_witness :
  assign_course_to_employee (scenario [employee_E] [] ["MEM1001"; "2002"]) =
  (Ret tt,
   World (P := RecordFile) (scenario_files [employee_E] []) []
     ([] ++ [MsgCourseNotFound])).
Proof.
  eapply (proj2 (assignment_not_found RecordFile
                   (scenario [employee_E] [] ["MEM1001"; "2002"])
                   "MEM1001" "2002" [] 2002 eq_refl eq_refl
                   ltac:(discriminate) ltac:(discriminate)) []).
  - split; [reflexivity|]. split; [constructor|].
    exists (JStr "MEM1001"). split; reflexivity.
  - repeat constructor. exists math101, (JInt 1001).
    repeat split; reflexivity.
Defined.

(** ** The limit of five courses *)

Section Cap.
Context {P : Platform}.

Ltac stays := intros; first [apply rewrites_keep | apply touches_first_keep]; assumption.

Lemma register_found_cap (w : world P) before d after course cs n :
  dict_get "Courses" d = Some cs ->
  py_len cs = Ret n ->
  (n < 5)%nat ->
  leads w (register_found before d after course)
    (rewrites "students.json" ["Courses"; "Balance"]
       (fun d' => exists ys, dict_get "Courses" d' = Some (JArr ys) /\
                             (List.length ys <= 5)%nat)
       w before d after).
Proof.
  intros Hcs Hn Hlt. unfold register_found.
  apply leads_lift; [stays|]. intros cs0 Hcs0.
  unfold getitem in Hcs0. rewrite Hcs in Hcs0. injection Hcs0 as <-.
  destruct cs; try (apply leads_keeps; [apply keeps_raise|stays]).
  apply leads_lift; [stays|]. intros subject _.
  apply leads_lift; [stays|]. intros cs' Hcs'.
  apply leads_lift; [stays|]. intros balance _.
  apply leads_lift; [stays|]. intros cost _.
  apply leads_lift; [stays|]. intros balance' _.
  apply leads_write.
  - intros. apply keeps_print.
  - intros w2 H2. right. eexists. split; [exact H2|]. split.
    + apply same_except_set; [simpl; auto|].
      apply same_except_set; [simpl; auto|]. apply same_except_refl.
    + simpl in Hcs', Hn. injection Hcs' as <-. injection Hn as <-.
      exists (xs ++ [subject]). split.
      * rewrite dict_get_set_other by discriminate. apply dict_get_set_same.
      * rewrite length_app. simpl. lia.
Qed.

Lemma register_for_course_cap mem_id (w : world P) :
  leads w (register_for_course mem_id)
    (touches_first "students.json" mem_id ["Courses"; "Balance"]
       (fun d' => exists ys, dict_get "Courses" d' = Some (JArr ys) /\
                             (List.length ys <= 5)%nat) w).
Proof.
  unfold register_for_course. apply leads_read.
  apply leads_for_first; [stays| |apply leads_keeps; [apply keeps_print|stays]].
  intros pre d suf Hm.
  apply leads_weaken with (1 := fun w2 => rewrites_touches _ _ _ _ w pre d suf w2 Hm).
  apply leads_lift; [stays|]. intros cs Hcs.
  apply leads_lift; [stays|]. intros n Hn.
  destruct (5 <=? n)%nat eqn:E5; [apply leads_keeps; [apply keeps_print|stays]|].
  apply leads_lift; [stays|]. intros balance _.
  apply leads_lift; [stays|]. intros high _.
  destruct high; [apply leads_keeps; [apply keeps_print|stays]|].
  apply leads_bind; [apply keeps_view_courses|stays|]. intros _.
  apply leads_try; [apply rewrites_files| |apply keeps_print].
  apply leads_bind; [apply keeps_input|stays|]. intros line.
  apply leads_bind; [apply keeps_int|stays|]. intros crn.
  apply leads_read.
  apply leads_for_first; [stays| |apply leads_keeps; [apply keeps_print|stays]].
  intros _ course _ _.
  apply (register_found_cap w ([] ++ pre) d suf course cs n).
  - unfold getitem in Hcs. destruct (dict_get "Courses" d); congruence.
  - exact Hn.
  - now apply Nat.leb_gt.
Qed.

End Cap.

(** X23. In every state and however it ends, [register_for_course]
    either leaves every file as it was, or rewrites the student store
    with the first matching record changed at [Courses] and [Balance]
    only, and that record then lists at most five courses: a
    registration never takes a student past five. *)
Theorem registration_keeps_cap (P : Platform) (w : world P) (mem_id : string) :
  touches_first "students.json" mem_id ["Courses"; "Balance"]
    (fun d' => exists ys, dict_get "Courses" d' = Some (JArr ys) /\
                          (List.length ys <= 5)%nat)
    w (snd (register_for_course mem_id w)).
Proof. now apply (register_for_course_cap mem_id w). Qed.

(** ** An employee added and then assigned a course *)

Lemma stored_same_file {P : Platform} (w w1 : world P) name :
  files w1 name = files w name -> stored w1 name = stored w name.
Proof. intros H. unfold stored. now rewrite H. Qed.

(** X24. An employee is added and then assigned a course under the
    identifier just issued. Provided no record already in the store has
    that identifier (one may, after a restart), and the store holds a
    course with the typed CRN, the assignment returns normally and the
    employee store is the old one followed by the new record, which lists
    that course and has a salary of 35000. Reading back what was written
    is assumed to give the records written. *)
Theorem added_employee_is_assignable (P : Platform) (HL : Lawful P)
    (strptime : string -> option string) (s : session P)
    (name dline city country zip department cline : string)
    (rest : list string) (dob : string) (crn : Z)
    (cpre : list json) (c : list (string * json)) (csuf : list json)
    (subject : json) :
  stdin (state s) =
    name :: dline :: city :: country :: zip :: department ::
    ("MEM" ++ str (mem_id_counter s + 1))%string :: cline :: rest ->
  strptime dline = Some dob ->
  py_int cline = Some crn ->
  Forall (passed "ID" (JStr ("MEM" ++ str (mem_id_counter s + 1))))
    (stored (state s) "employees.json") ->
  first_match "CRN" (JInt crn) (stored (state s) "courses.json") cpre c csuf ->
  dict_get "Subject" c = Some subject ->
  fst (assign_course_to_employee (state (snd (add_employee strptime s))))
    = Ret tt /\
  exists d',
    stored
      (snd (assign_course_to_employee (state (snd (add_employee strptime s)))))
      "employees.json" = stored (state s) "employees.json" ++ [JObj d'] /\
    dict_get "ID" d' = Some (JStr ("MEM" ++ str (mem_id_counter s + 1))) /\
    dict_get "Courses" d' = Some (JArr [JObj c]) /\
    dict_get "Salary" d' = Some (JInt 35000).
Proof.
  intros Hin Hd Hint Hall Hc Hsub.
  destruct (add_employee_run strptime s _ _ _ _ _ _ _ _ Hin Hd)
    as [w1 [E [Hf Hi]]].
  rewrite E. cbn [snd state].
  destruct (stored_after_append HL _ _ _ _ Hf) as [Hs Ho].
  rewrite (assign_course_to_employee_typed w1 _ cline rest crn Hi Hint).
  set (w2 := World (files w1) rest (stdout w1)).
  assert (Hc2 : first_match "CRN" (JInt crn) (stored w2 "courses.json")
                  cpre c csuf).
  { replace (stored w2 "courses.json") with (stored (state s) "courses.json");
      [exact Hc|].
    symmetry. apply stored_same_file. apply Ho. discriminate. }
  pose (newd :=
          [("Name", JStr name);
           ("ID", JStr ("MEM" ++ str (mem_id_counter s + 1)));
           ("DOB", JStr dob);
           ("Address", JObj [("city", JStr city); ("country", JStr country);
                             ("zip_code", JStr zip)]);
           ("Department", JStr department); ("Courses", JArr []);
           ("Salary", JInt 30000)]).
  rewrite (assign_course_with_run w2 _ crn
             (stored (state s) "employees.json") newd [] cpre c csuf newd []
             (JStr name) subject).
  - cbn [fst snd]. split; [reflexivity|]. eexists. split; [|split; [|split]].
    + unfold stored at 1. cbn [files]. unfold write_files.
      rewrite String.eqb_refl, HL. reflexivity.
    + rewrite !dict_get_set_other by discriminate. reflexivity.
    + rewrite dict_get_set_other by discriminate. apply dict_get_set_same.
    + apply dict_get_set_same.
  - split; [exact Hs|]. split; [exact Hall|].
    eexists. split; [reflexivity|]. now apply py_eq_str.
  - exact Hc2.
  - reflexivity.
  - reflexivity.
  - exact Hsub.
  - reflexivity.
Qed.

Lemma added_employee_is_assignable_witness :
  fst (assign_course_to_employee
         (state (snd (add_employee sample_strptime
            (start (scenario [] []
               ["Ann"; "1990-01-01"; "Riyadh"; "SA"; "11564"; "Math";
                "MEM1001"; "1001"])))))) = Ret tt /\
  exists d',
    stored
      (snd (assign_course_to_employee
         (state (snd (add_employee sample_strptime
            (start (scenario [] []
               ["Ann"; "1990-01-01"; "Riyadh"; "SA"; "11564"; "Math";
                "MEM1001"; "1001"])))))))
      "employees.json" =
      stored (state (start (scenario [] []
               ["Ann"; "1990-01-01"; "Riyadh"; "SA"; "11564"; "Math";
                "MEM1001"; "1001"]))) "employees.json" ++ [JObj d'] /\
    dict_get "ID" d' = Some (JStr ("MEM" ++ str (1000 + 1))) /\
    dict_get "Courses" d' = Some (JArr [JObj math101]) /\
    dict_get "Salary" d' = Some (JInt 35000).
Proof.
  apply (added_employee_is_assignable RecordFile RecordFile_lawful
           sample_strptime
           (start (scenario [] []
              ["Ann"; "1990-01-01"; "Riyadh"; "SA"; "11564"; "Math";
               "MEM1001"; "1001"]))
           "Ann" "1990-01-01" "Riyadh" "SA" "11564" "Math" "1001" []
           "1990-01-01T00:00:00" 1001 [] math101 [] (JStr "Math101")).
  - reflexivity.
  - reflexivity.
  - reflexivity.
  - constructor.
  - split; [reflexivity|]. split; [constructor|].
    exists (JInt 1001). split; reflexivity.
  - reflexivity.
Defined.
